(** * DTIQCGui: intensity rescaling, slice-click location, exclusion set, save

    A shallow embedding of [src/DTIQCGui/src/dti_qc_gui.pyw] and the
    properties of it that the specification states.

    Conventions of the embedding.
    - Python integers are [Z]; array samples and Python/numpy floats are
      exact rationals [Q], the non-finite IEEE values being explicit
      constructors of [float64].  Rounding of finite float64 results is not
      modelled: every concrete input used below is chosen so that the
      float64 computation and the exact one agree.
    - A raised exception is the [Raised] constructor of [result]; the
      handlers return the exception that leaves them, if any.
    - numpy, Qt and the builtin [eval] are libraries, not code of this
      program; the few operations of them that the program calls are
      modelled from their reference behaviour and named after them. *)

From Stdlib Require Import ZArith QArith Qround Lia Ascii String.
From stdpp Require Import base option list gmap strings pretty sorting.

Local Open Scope Z_scope.

(** ** Python: exceptions and results *)

Inductive exn : Type :=
  | SyntaxError | NameError | TypeError | ValueError | IndexError
  | AttributeError | ZeroDivisionError | OverflowError | IOError | SystemExit.

Inductive result (A : Type) : Type :=
  | Ok (a : A)
  | Raised (e : exn).
Arguments Ok {A} a.
Arguments Raised {A} e.

#[global] Instance result_ret : MRet result := fun A => @Ok A.
#[global] Instance result_bind : MBind result := fun A B k r =>
  match r with
  | Ok a => k a
  | Raised e => Raised e
  end.

(** ** numpy: float64 values and the cast to uint8 *)

Inductive float64 : Type :=
  | Finite (q : Q)
  | PosInf
  | NegInf
  | NaN.

Definition Qlt_bool (a b : Q) : bool := negb (Qle_bool b a).

(** [a / b] on float64 operands of an ndarray expression: dividing by zero
    raises nothing (numpy only warns) and yields an infinity or NaN. *)
Definition float_div (a b : Q) : float64 :=
  if Qeq_bool b 0 then
    if Qlt_bool 0 a then PosInf
    else if Qlt_bool a 0 then NegInf
    else NaN
  else Finite (a / b).

(** Python's [int()] and C's cast of a float: truncation toward zero. *)
Definition Qtrunc (q : Q) : Z := Z.quot (Qnum q) (Z.pos (Qden q)).

(** [numpy.uint8(x)] of a float64: the C cast.  The value is truncated
    toward zero to a 32-bit integer whose low byte is kept, so an
    out-of-range value wraps modulo 256; NaN, the infinities and magnitudes
    from 2^31 on convert to the integer whose low byte is 0 (x86-64). *)
Definition uint8 (x : float64) : Z :=
  match x with
  | Finite q =>
      let t := Qtrunc q in
      if Z.abs t <? 2 ^ 31 then t mod 256 else 0
  | PosInf | NegInf | NaN => 0
  end.

(** Element type of an input volume.  Storing a float64 into an integer
    array truncates it toward zero. *)
Inductive dtype : Type := dt_float | dt_int.

Definition store_as (dt : dtype) (v : Q) : Q :=
  match dt with
  | dt_float => v
  | dt_int => inject_Z (Qtrunc v)
  end.

(** [flatnonzero(mask)]: the flat indices at which [mask] is true. *)
Fixpoint flatnonzero_from (i : nat) (mask : list bool) : list nat :=
  match mask with
  | [] => []
  | b :: mask' =>
      if b then i :: flatnonzero_from (S i) mask'
      else flatnonzero_from (S i) mask'
  end.

Definition flatnonzero (mask : list bool) : list nat := flatnonzero_from 0 mask.

(** [a.flat[idx] = v]: every listed position receives [v]. *)
Definition flat_assign {A : Type} (a : list A) (idx : list nat) (v : A) : list A :=
  foldr (fun i acc => <[i := v]> acc) a idx.

Fixpoint Qinsert (x : Q) (l : list Q) : list Q :=
  match l with
  | [] => [x]
  | y :: l' => if Qle_bool x y then x :: l else y :: Qinsert x l'
  end.

Definition Qsort (l : list Q) : list Q := foldr Qinsert [] l.

Definition Qmax_list (x : Q) (l : list Q) : Q :=
  foldl (fun m y => if Qle_bool m y then y else m) x l.

Definition Qmin_list (x : Q) (l : list Q) : Q :=
  foldl (fun m y => if Qle_bool y m then y else m) x l.

(** [a.max()]: raises ValueError on an empty array. *)
Definition ndarray_max (a : list Q) : result Q :=
  match a with
  | [] => Raised ValueError
  | x :: l => Ok (Qmax_list x l)
  end.

Definition ndarray_min (a : list Q) : result Q :=
  match a with
  | [] => Raised ValueError
  | x :: l => Ok (Qmin_list x l)
  end.

(** [numpy.percentile(a, q)] of a flat array: the minimum for [q = 0], the
    maximum for [q = 100], otherwise linear interpolation between the two
    order statistics around the virtual index [q/100 * (n-1)]. *)
Definition percentile (a : list Q) (q : Q) : result Q :=
  if Qeq_bool q 0 then ndarray_min a
  else if Qeq_bool q 100 then ndarray_max a
  else
    let sorted := Qsort a in
    let q' := (q / 100)%Q in
    if Qlt_bool q' 0 || Qlt_bool 1 q' then Raised ValueError
    else
      let index := (q' * (inject_Z (Z.of_nat (length sorted)) - 1))%Q in
      let i := Qtrunc index in
      if Qeq_bool (inject_Z i) index then
        match sorted !! Z.to_nat i with
        | Some x => Ok x
        | None => Raised ValueError
        end
      else
        let j := i + 1 in
        match sorted !! Z.to_nat i, sorted !! Z.to_nat j with
        | Some x, Some y =>
            Ok ((x * (inject_Z j - index) + y * (index - inject_Z i)) / 1)%Q
        | _, _ => Raised ValueError
        end.

(** ** The intensity rescaler ([rescaleImageData]) *)

(** A 4-D volume, stored by direction: [channels v !! d] is
    [data[:, :, :, d].flatten()], and [data.shape[-1]] is the number of
    channels. *)
Record ndarray4 : Type := mk_ndarray4 {
  nd_dtype : dtype;
  channels : list (list Q)
}.

(** What the rescaler does that a caller can observe in order: an emission
    of the progress signal, and the write of a finished channel into
    [output]. *)
Inductive rescale_event : Type :=
  | Emitted (n : Z)
  | ChannelWritten (dir_no : nat).

(** The progress signal [RescaleSignal.volumeBeingRescaled]. *)
Inductive pyqtSignal : Type := volumeBeingRescaled.

(** The inner function [cast_uint8(data, normConst)], on one flat array. *)
Definition cast_uint8 (data : list Q) (normConst : Q) : list Z :=
  map (fun v => uint8 (float_div (255 * v) normConst)) data.

(** [zeros(data.shape, dtype=uint8)]. *)
Definition zeros (data : ndarray4) : list (list Z) :=
  map (fun c => replicate (length c) 0) (channels data).

Section RescaleImageData.
Variable data : ndarray4.
Variable quantile : Q.
Variable quantileFunc : option (list Q -> Q -> result Q).
Variable signal : option pyqtSignal.

(** Lines 85-96: the body of the loop after the emission, for the copy
    [cdata] of one channel.  With a quantile function: the robust maximum
    (line 88), the assignment of [maxValue] to the samples at or above it
    (line 91; [maxValue += 0.0] then leaves the float as it is), and the
    cast (line 96).  Without: the maximum of the channel and the cast. *)
Definition rescale_channel (cdata : list Q) : result (list Z) :=
  match quantileFunc with
  | Some f =>
      maxValue ← f cdata quantile;
      let cdata' :=
        flat_assign cdata
          (flatnonzero (map (fun v => Qle_bool maxValue v) cdata))
          (store_as (nd_dtype data) maxValue) in
      Ok (cast_uint8 cdata' maxValue)
  | None =>
      maxValue ← ndarray_max cdata;
      Ok (cast_uint8 cdata maxValue)
  end.

Definition emit (dir_no : nat) : list rescale_event :=
  match signal with
  | Some _ => [Emitted (Z.of_nat dir_no + 1)]
  | None => []
  end.

(** The [for dir_no in range(data.shape[-1])] loop, over the directions
    still to do. *)
Fixpoint rescale_loop (dirs : list nat) (output : list (list Z))
    (trace : list rescale_event) : list rescale_event * result (list (list Z)) :=
  match dirs with
  | [] => (trace, Ok output)
  | dir_no :: rest =>
      let trace := trace ++ emit dir_no in
      match channels data !! dir_no with
      | None => (trace, Raised IndexError)
      | Some cdata =>
          match rescale_channel cdata with
          | Raised e => (trace, Raised e)
          | Ok c8 =>
              rescale_loop rest (<[dir_no := c8]> output)
                (trace ++ [ChannelWritten dir_no])
          end
      end
  end.

End RescaleImageData.

Definition rescaleImageData (data : ndarray4) (quantile : Q) (fastest : bool)
    (quantileFunc : option (list Q -> Q -> result Q))
    (signal : option pyqtSignal)
    : list rescale_event * result (list (list Z)) :=
  if fastest then
    let maxValue := 4095%Q in
    ([], Ok (map (fun c => cast_uint8 c maxValue) (channels data)))
  else
    rescale_loop data quantile quantileFunc signal
      (seq 0 (length (channels data))) (zeros data) [].

(** The defaults of the signature: [quantile=99.5], [quantileFunc=percentile]. *)
Definition default_quantile : Q := (995 # 10)%Q.
Definition default_quantileFunc : option (list Q -> Q -> result Q) := Some percentile.

(** ** Qt: sizes, images, sliders *)

Record QSize : Type := mk_QSize { width : Z; height : Z }.

Record QRect : Type := mk_QRect { left : Z; top : Z; rect_size : QSize }.

(** An image is its size and, for every pixel, the datum drawn there. *)
Record QImage (A : Type) : Type := mk_QImage {
  img_size : QSize;
  pixel : Z -> Z -> A
}.
Arguments mk_QImage {A} _ _.
Arguments img_size {A} _.
Arguments pixel {A} _ _ _.

(** [QImage.scaled(size)] with the default modes: exactly [size], each
    target pixel taking the source pixel at the same relative place. *)
Definition scaled {A : Type} (size : QSize) (img : QImage A) : QImage A :=
  mk_QImage size
    (fun X Y => pixel img (X * width (img_size img) / width size)
                          (Y * height (img_size img) / height size)).

(** [QImage.transformed(rot90)], a quarter turn clockwise: the source
    pixel [(x, y)] lands on [(h - 1 - y, x)]. *)
Definition transformed_rot90 {A : Type} (img : QImage A) : QImage A :=
  let w := width (img_size img) in
  let h := height (img_size img) in
  mk_QImage (mk_QSize h w) (fun X Y => pixel img Y (h - 1 - X)).

(** [QImage.mirrored(horizontal, vertical)]. *)
Definition mirrored {A : Type} (horizontal vertical : bool) (img : QImage A)
    : QImage A :=
  let w := width (img_size img) in
  let h := height (img_size img) in
  mk_QImage (img_size img)
    (fun X Y => pixel img (if horizontal then w - 1 - X else X)
                          (if vertical then h - 1 - Y else Y)).

Record QSlider : Type := mk_QSlider { minimum : Z; maximum : Z; value : Z }.

(** [QSlider.setValue]: the value is forced into the legal range. *)
Definition setValue (v : Z) (s : QSlider) : QSlider :=
  mk_QSlider (minimum s) (maximum s) (Z.max (minimum s) (Z.min (maximum s) v)).

(** ** Rendering a slice ([numpy2grayscaleqimage]) *)

(** A 2-D slice: its shape and its element at every index pair. *)
Record ndarray2 (A : Type) : Type := mk_ndarray2 {
  shape : Z * Z;
  item : Z -> Z -> A
}.
Arguments mk_ndarray2 {A} _ _.
Arguments shape {A} _.
Arguments item {A} _ _ _.

Definition float_mul (x : float64) (k : Q) : float64 :=
  match x with
  | Finite q => Finite (q * k)
  | PosInf => if Qlt_bool 0 k then PosInf else if Qlt_bool k 0 then NegInf else NaN
  | NegInf => if Qlt_bool 0 k then NegInf else if Qlt_bool k 0 then PosInf else NaN
  | NaN => NaN
  end.

(** Python's [int(x)] of a float. *)
Definition py_int (x : float64) : result Z :=
  match x with
  | Finite q => Ok (Qtrunc q)
  | PosInf | NegInf => Raised OverflowError
  | NaN => Raised ValueError
  end.

Definition DEFAULT_PREVIEW_SIZE : QSize := mk_QSize 256 256.

(** Lines 149-158: the size the slice is scaled to. *)
Definition rescaleSize (data_shape : Z * Z) (res : Q * Q) (previewsize : QSize)
    : result QSize :=
  let verticalSize := (res.2 * inject_Z data_shape.2)%Q in
  let horizontalSize := (res.1 * inject_Z data_shape.1)%Q in
  if Qle_bool horizontalSize verticalSize then
    w ← py_int (float_mul (float_div horizontalSize verticalSize)
                  (inject_Z (height previewsize)));
    Ok (mk_QSize w (height previewsize))
  else
    h ← py_int (float_mul (float_div verticalSize horizontalSize)
                  (inject_Z (width previewsize)));
    Ok (mk_QSize (width previewsize) h).

Definition numpy2grayscaleqimage {A : Type} (data : ndarray2 A) (res : Q * Q)
    (previewsize : QSize) (flipstate : bool * bool) (rotate : bool)
    : result (QImage A) :=
  let qImage := mk_QImage (mk_QSize (shape data).1 (shape data).2) (item data) in
  size ← rescaleSize (shape data) res previewsize;
  if rotate then
    Ok (mirrored flipstate.1 flipstate.2 (transformed_rot90 (scaled size qImage)))
  else
    Ok (mirrored flipstate.1 flipstate.2 (scaled size qImage)).

(** ** The application state ([DtiQAGui]) *)

Record Ui_FormDTIQA : Type := mk_Ui {
  checkBox_preview_xy_vflip : bool;
  checkBox_preview_xy_hflip : bool;
  checkBox_preview_yz_vflip : bool;
  checkBox_preview_yz_hflip : bool;
  checkBox_preview_yz_rotate : bool;
  checkBox_preview_zx_vflip : bool;
  checkBox_preview_zx_hflip : bool;
  checkBox_preview_zx_rotate : bool;
  horizontalSlider_x : QSlider;
  horizontalSlider_y : QSlider;
  horizontalSlider_z : QSlider;
  lineEdit_exclude : string
}.

(** The part of the collaborator [ProcessDTI] that the program reads and
    writes: [DIMS] is the shape of the volume along x, y and z and
    [SignalLength] what [getSignalLength()] returns. *)
Record ProcessDTI : Type := mk_ProcessDTI {
  FILENAME : string;
  DIMS : Z * Z * Z;
  SignalLength : Z;
  EXCLUDED_DIRS : gset Z
}.

(** The pixmaps of [PreviewObject], by their sizes. *)
Record PreviewObject : Type := mk_PreviewObject {
  qpixmap_x : QSize;
  qpixmap_y : QSize;
  qpixmap_z : QSize
}.

Record DtiQAGui : Type := mk_DtiQAGui {
  dti_obj : option ProcessDTI;
  ui : Ui_FormDTIQA;
  preview_data : PreviewObject
}.

Definition with_slider_x (s : QSlider) (u : Ui_FormDTIQA) : Ui_FormDTIQA :=
  mk_Ui (checkBox_preview_xy_vflip u) (checkBox_preview_xy_hflip u)
    (checkBox_preview_yz_vflip u) (checkBox_preview_yz_hflip u)
    (checkBox_preview_yz_rotate u) (checkBox_preview_zx_vflip u)
    (checkBox_preview_zx_hflip u) (checkBox_preview_zx_rotate u)
    s (horizontalSlider_y u) (horizontalSlider_z u) (lineEdit_exclude u).

Definition with_slider_y (s : QSlider) (u : Ui_FormDTIQA) : Ui_FormDTIQA :=
  mk_Ui (checkBox_preview_xy_vflip u) (checkBox_preview_xy_hflip u)
    (checkBox_preview_yz_vflip u) (checkBox_preview_yz_hflip u)
    (checkBox_preview_yz_rotate u) (checkBox_preview_zx_vflip u)
    (checkBox_preview_zx_hflip u) (checkBox_preview_zx_rotate u)
    (horizontalSlider_x u) s (horizontalSlider_z u) (lineEdit_exclude u).

Definition with_slider_z (s : QSlider) (u : Ui_FormDTIQA) : Ui_FormDTIQA :=
  mk_Ui (checkBox_preview_xy_vflip u) (checkBox_preview_xy_hflip u)
    (checkBox_preview_yz_vflip u) (checkBox_preview_yz_hflip u)
    (checkBox_preview_yz_rotate u) (checkBox_preview_zx_vflip u)
    (checkBox_preview_zx_hflip u) (checkBox_preview_zx_rotate u)
    (horizontalSlider_x u) (horizontalSlider_y u) s (lineEdit_exclude u).

Definition with_lineEdit_exclude (txt : string) (u : Ui_FormDTIQA) : Ui_FormDTIQA :=
  mk_Ui (checkBox_preview_xy_vflip u) (checkBox_preview_xy_hflip u)
    (checkBox_preview_yz_vflip u) (checkBox_preview_yz_hflip u)
    (checkBox_preview_yz_rotate u) (checkBox_preview_zx_vflip u)
    (checkBox_preview_zx_hflip u) (checkBox_preview_zx_rotate u)
    (horizontalSlider_x u) (horizontalSlider_y u) (horizontalSlider_z u) txt.

Definition with_ui (u : Ui_FormDTIQA) (self : DtiQAGui) : DtiQAGui :=
  mk_DtiQAGui (dti_obj self) u (preview_data self).

Definition with_EXCLUDED_DIRS (s : gset Z) (obj : ProcessDTI) : ProcessDTI :=
  mk_ProcessDTI (FILENAME obj) (DIMS obj) (SignalLength obj) s.

Definition is_data_loaded (self : DtiQAGui) : bool :=
  match dti_obj self with Some _ => true | None => false end.

(** ** The slice-click locator ([__preview_clicked]) *)

(** A [PreviewMouseClick]: the slicing axis of the clicked label and the
    position of the event in the label. *)
Record PreviewMouseClick : Type := mk_PreviewMouseClick {
  SLICING_AXIS : string;
  pos_x : Z;
  pos_y : Z
}.

(** [int(p / pm * n)], as in [int(position.x()/pmX*nifti_shape[1])]: [pm]
    is a Python float, so a zero [pm] raises. *)
Definition rescale_position (p : Z) (pm : Q) (n : Z) : result Z :=
  if Qeq_bool pm 0 then Raised ZeroDivisionError
  else Ok (Qtrunc (inject_Z p / pm * inject_Z n)).

(** [pixmap_rect] is the rectangle [__get_previewpixmap_boundingbox]
    returns for the clicked label; it is computed by Qt from the geometry
    of the label and is an input here. *)
Definition __preview_clicked (self : DtiQAGui) (mouseclicked : PreviewMouseClick)
    (pixmap_rect : QRect) : result DtiQAGui :=
  let slaxis := SLICING_AXIS mouseclicked in
  let u := ui self in
  match dti_obj self with
  | None => Ok self
  | Some obj =>
      let '(shape0, shape1, shape2) := DIMS obj in
      if String.eqb slaxis "z" then
        let pmY := inject_Z (height (qpixmap_z (preview_data self))) in
        let pmX := inject_Z (width (qpixmap_z (preview_data self))) in
        x_val ← rescale_position (pos_x mouseclicked) pmX shape1;
        y_val ← rescale_position (pos_y mouseclicked) pmY shape0;
        let y_val := if checkBox_preview_xy_vflip u
                     then maximum (horizontalSlider_y u) - y_val else y_val in
        let x_val := if checkBox_preview_xy_hflip u
                     then maximum (horizontalSlider_x u) - x_val else x_val in
        let u := with_slider_x (setValue x_val (horizontalSlider_x u)) u in
        let u := with_slider_y (setValue y_val (horizontalSlider_y u)) u in
        Ok (with_ui u self)
      else if String.eqb slaxis "x" then
        let pmY := inject_Z (height (qpixmap_x (preview_data self))) in
        let pmX := inject_Z (width (qpixmap_x (preview_data self))) in
        yz ← (if checkBox_preview_yz_rotate u then
                y_val ← rescale_position (pos_y mouseclicked) pmY shape1;
                z ← rescale_position (pos_x mouseclicked - left pixmap_rect) pmX shape2;
                Ok (y_val, maximum (horizontalSlider_z u) - z)
              else
                y_val ← rescale_position (pos_x mouseclicked) pmX shape1;
                z_val ← rescale_position (pos_y mouseclicked - top pixmap_rect) pmY shape2;
                Ok (y_val, z_val));
        let '(y_val, z_val) := yz in
        let z_val := if checkBox_preview_yz_vflip u
                     then maximum (horizontalSlider_z u) - z_val else z_val in
        let y_val := if checkBox_preview_yz_hflip u
                     then maximum (horizontalSlider_y u) - y_val else y_val in
        let u := with_slider_z (setValue z_val (horizontalSlider_z u)) u in
        let u := with_slider_y (setValue y_val (horizontalSlider_y u)) u in
        Ok (with_ui u self)
      else if String.eqb slaxis "y" then
        let pmY := inject_Z (height (qpixmap_y (preview_data self))) in
        let pmX := inject_Z (width (qpixmap_y (preview_data self))) in
        z_val ← rescale_position (pos_y mouseclicked - top pixmap_rect) pmY shape2;
        x_val ← rescale_position (pos_x mouseclicked) pmX shape0;
        let z_val := if checkBox_preview_zx_vflip u
                     then maximum (horizontalSlider_z u) - z_val else z_val in
        let x_val := if checkBox_preview_zx_hflip u
                     then maximum (horizontalSlider_x u) - x_val else x_val in
        let '(x_val, z_val) := if checkBox_preview_zx_rotate u
                               then (z_val, x_val) else (x_val, z_val) in
        let u := with_slider_z (setValue z_val (horizontalSlider_z u)) u in
        let u := with_slider_x (setValue x_val (horizontalSlider_x u)) u in
        Ok (with_ui u self)
      else Ok self
  end.

(** The three renderers [__update_preview_z/x/y], reduced to what decides
    where a voxel is drawn: each pixel of the result carries the pair of
    indices, along the two in-plane axes of the slice, of the voxel drawn
    there.  [pixel_sizes] is the tuple of [get_pixel_sizes()]. *)
Definition index_slice (d0 d1 : Z) : ndarray2 (Z * Z) :=
  mk_ndarray2 (d0, d1) (fun i j => (i, j)).

Definition __update_preview_z (self : DtiQAGui) (obj : ProcessDTI)
    (pixel_sizes : Q * Q * Q * Q) : result (QImage (Z * Z)) :=
  let '(res0, res1, res2, res3) := pixel_sizes in
  let '(shape0, shape1, shape2) := DIMS obj in
  let mir := (checkBox_preview_xy_hflip (ui self), checkBox_preview_xy_vflip (ui self)) in
  numpy2grayscaleqimage (index_slice shape0 shape1) (res1, res2)
    DEFAULT_PREVIEW_SIZE mir false.

Definition __update_preview_x (self : DtiQAGui) (obj : ProcessDTI)
    (pixel_sizes : Q * Q * Q * Q) : result (QImage (Z * Z)) :=
  let '(res0, res1, res2, res3) := pixel_sizes in
  let '(shape0, shape1, shape2) := DIMS obj in
  let mir := (checkBox_preview_yz_hflip (ui self), checkBox_preview_yz_vflip (ui self)) in
  numpy2grayscaleqimage (index_slice shape1 shape2) (res2, res3)
    DEFAULT_PREVIEW_SIZE mir (checkBox_preview_yz_rotate (ui self)).

Definition __update_preview_y (self : DtiQAGui) (obj : ProcessDTI)
    (pixel_sizes : Q * Q * Q * Q) : result (QImage (Z * Z)) :=
  let '(res0, res1, res2, res3) := pixel_sizes in
  let '(shape0, shape1, shape2) := DIMS obj in
  let mir := (checkBox_preview_zx_hflip (ui self), checkBox_preview_zx_vflip (ui self)) in
  numpy2grayscaleqimage (index_slice shape0 shape2) (res1, res3)
    DEFAULT_PREVIEW_SIZE mir (checkBox_preview_zx_rotate (ui self)).

(** ** Python values and the builtins the exclusion field goes through *)

#[local] Set Warnings "-register-all".
Inductive pyvalue : Type :=
  | PyInt (n : Z)
  | PyLong (n : Z)
  | PyFloat (q : Q)
  | PyStr (s : string)
  | PyNone
  | PyList (l : list pyvalue).

(** [isinstance(v, int)], with the integer when it holds. *)
Definition as_int (v : pyvalue) : option Z :=
  match v with
  | PyInt n => Some n
  | _ => None
  end.

Definition numeric (v : pyvalue) : option Q :=
  match v with
  | PyInt n | PyLong n => Some (inject_Z n)
  | PyFloat q => Some q
  | _ => None
  end.

(** [a == b] between hashable values: numbers compare by value. *)
Definition py_equal (a b : pyvalue) : bool :=
  match numeric a, numeric b with
  | Some x, Some y => Qeq_bool x y
  | _, _ =>
      match a, b with
      | PyStr s, PyStr t => String.eqb s t
      | PyNone, PyNone => true
      | _, _ => false
      end
  end.

Definition hashable (v : pyvalue) : bool :=
  match v with
  | PyList _ => false
  | _ => true
  end.

(** The distinct elements, each represented by its first occurrence. *)
Fixpoint py_distinct (seen l : list pyvalue) : list pyvalue :=
  match l with
  | [] => []
  | v :: l' =>
      if existsb (py_equal v) seen then py_distinct seen l'
      else v :: py_distinct (v :: seen) l'
  end.

(** [set(v)]: the elements of an iterable, which must be hashable.  The
    result lists the members of the set; the handler below does not depend
    on the order in which a set is iterated. *)
Definition py_set (v : pyvalue) : result (list pyvalue) :=
  match v with
  | PyList l =>
      if forallb hashable l then Ok (py_distinct [] l) else Raised TypeError
  | PyStr s =>
      Ok (py_distinct [] (map (fun c => PyStr (String c EmptyString))
                            (String.list_ascii_of_string s)))
  | PyInt _ | PyLong _ | PyFloat _ | PyNone => Raised TypeError
  end.

(** [str(sorted(list(s)))] of a set of integers: [[1, 2]]. *)
Fixpoint join (sep : string) (l : list string) : string :=
  match l with
  | [] => ""
  | [s] => s
  | s :: l' => s +:+ sep +:+ join sep l'
  end.

Definition str_sorted (s : gset Z) : string :=
  "[" +:+ join ", " (map pretty (merge_sort Z.le (elements s))) +:+ "]".

(** *** A fragment of [eval]

    The field is evaluated by the builtin [eval].  [literal_eval] decides
    the texts whose evaluation is plain: a decimal integer, a bracketed
    list of decimal integers, and the texts in which two names or numbers
    stand side by side, which no Python expression allows.  On any other
    text it answers [None]; [py_eval] leaves those to [rest_of_python]. *)

Inductive token : Type :=
  | TInt (n : Z)
  | TName (s : string)
  | TLBracket
  | TRBracket
  | TComma
  | TMinus
  | TUnknown.

Inductive partial_token : Type :=
  | PNone
  | PNum (leading_zero : bool) (n : Z)
  | PName (s : string)
  | PBad.

Definition flush (p : partial_token) : list token :=
  match p with
  | PNone => []
  | PNum _ n => [TInt n]
  | PName s => [TName s]
  | PBad => [TUnknown]
  end.

Definition is_digit (c : ascii) : bool :=
  let n := nat_of_ascii c in (48 <=? n)%nat && (n <=? 57)%nat.

Definition is_name_start (c : ascii) : bool :=
  let n := nat_of_ascii c in
  ((65 <=? n)%nat && (n <=? 90)%nat) || ((97 <=? n)%nat && (n <=? 122)%nat)
  || (n =? 95)%nat.

Definition is_space (c : ascii) : bool :=
  let n := nat_of_ascii c in (n =? 32)%nat || (n =? 9)%nat.

Definition digit_value (c : ascii) : Z := Z.of_nat (nat_of_ascii c) - 48.

Fixpoint lex (cs : list ascii) (p : partial_token) : list token :=
  match cs with
  | [] => flush p
  | c :: cs' =>
      if is_digit c then
        match p with
        | PNone => lex cs' (PNum (digit_value c =? 0) (digit_value c))
        | PNum true _ => lex cs' PBad
        | PNum false n => lex cs' (PNum false (10 * n + digit_value c))
        | PName s => lex cs' (PName (s +:+ String c EmptyString))
        | PBad => lex cs' PBad
        end
      else if is_name_start c then
        match p with
        | PNone => lex cs' (PName (String c EmptyString))
        | PName s => lex cs' (PName (s +:+ String c EmptyString))
        | PNum _ _ | PBad => lex cs' PBad
        end
      else
        flush p ++
        (if is_space c then []
         else if Ascii.eqb c "[" then [TLBracket]
         else if Ascii.eqb c "]" then [TRBracket]
         else if Ascii.eqb c "," then [TComma]
         else if Ascii.eqb c "-" then [TMinus]
         else [TUnknown]) ++
        lex cs' PNone
  end.

Definition keywords : list string :=
  ["and"; "as"; "assert"; "break"; "class"; "continue"; "def"; "del"; "elif";
   "else"; "except"; "exec"; "finally"; "for"; "from"; "global"; "if";
   "import"; "in"; "is"; "lambda"; "not"; "or"; "pass"; "print"; "raise";
   "return"; "try"; "while"; "with"; "yield"].

Definition is_unknown (t : token) : bool :=
  match t with
  | TUnknown => true
  | _ => false
  end.

Definition is_operand (t : token) : bool :=
  match t with
  | TInt _ => true
  | TName s => negb (bool_decide (s ∈ keywords))
  | _ => false
  end.

Fixpoint adjacent_operands (ts : list token) : bool :=
  match ts with
  | t :: ((t' :: _) as ts') =>
      (is_operand t && is_operand t') || adjacent_operands ts'
  | _ => false
  end.

(** The integer a literal denotes: a Python 2 [int] up to [sys.maxint],
    a [long] beyond. *)
Definition maxint : Z := 2 ^ 63 - 1.

Definition int_literal (negated : bool) (n : Z) : pyvalue :=
  let v := if negated then - n else n in
  if n <=? maxint then PyInt v else PyLong v.

(** The items of a list display, after the opening bracket. *)
Fixpoint parse_items (ts : list token) : option (list pyvalue) :=
  match ts with
  | [TRBracket] => Some []
  | TInt n :: ([TRBracket] as ts') | TInt n :: TComma :: ts' =>
      cons (int_literal false n) <$> parse_items ts'
  | TMinus :: TInt n :: ([TRBracket] as ts')
  | TMinus :: TInt n :: TComma :: ts' =>
      cons (int_literal true n) <$> parse_items ts'
  | _ => None
  end.

Definition literal_eval (txt : string) : option (result pyvalue) :=
  let ts := lex (String.list_ascii_of_string txt) PNone in
  if existsb is_unknown ts then None
  else if adjacent_operands ts then Some (Raised SyntaxError)
  else
    match ts with
    | [] => Some (Raised SyntaxError)
    | [TInt n] => Some (Ok (int_literal false n))
    | [TMinus; TInt n] => Some (Ok (int_literal true n))
    | TLBracket :: ts' => (fun l => Ok (PyList l)) <$> parse_items ts'
    | _ => None
    end.

Definition py_eval (rest_of_python : string -> result pyvalue) (txt : string)
    : result pyvalue :=
  match literal_eval txt with
  | Some r => r
  | None => rest_of_python txt
  end.

(** ** Handlers: what they show, what they leave behind *)

Inductive gui_event : Type :=
  | QMessageBox_critical (title text : string)
  | QMessageBox_information (title text : string)
  | setOverrideCursor
  | restoreOverrideCursor
  | saveData_called.

(** A handler ends with the state it leaves, the events it caused in
    order, and the exception that left it, if one did. *)
Record handled : Type := mk_handled {
  state : DtiQAGui;
  events : list gui_event;
  raised : option exn
}.

Definition get_excluded (self : DtiQAGui) : string := lineEdit_exclude (ui self).

Definition set_excluded (txt : string) (self : DtiQAGui) : DtiQAGui :=
  with_ui (with_lineEdit_exclude txt (ui self)) self.

Definition __update_excluded_list (self : DtiQAGui) : DtiQAGui :=
  match dti_obj self with
  | Some obj => set_excluded (str_sorted (EXCLUDED_DIRS obj)) self
  | None => set_excluded "[]" self
  end.

Definition ERR_MSG : string :=
  "The text entered must be in the [i, j, ...] format where i, j are integers, indicating which volume to exclude.".

(** The [for i in exc] loop of [__validate_text_excluded]: [None] when an
    element is not an [int] (the handler then reports and returns), the
    set [rem] of out-of-range integers otherwise. *)
Fixpoint collect_out_of_range (lastdir : Z) (exc : list pyvalue) (rem : gset Z)
    : option (gset Z) :=
  match exc with
  | [] => Some rem
  | i :: exc' =>
      match as_int i with
      | None => None
      | Some n =>
          if (n <? 0) || (lastdir <? n)
          then collect_out_of_range lastdir exc' ({[ n ]} ∪ rem)
          else collect_out_of_range lastdir exc' rem
      end
  end.

Definition __validate_text_excluded (eval : string -> result pyvalue)
    (self : DtiQAGui) : handled :=
  match dti_obj self with
  | None => mk_handled self [] None
  | Some obj =>
      let lastdir := SignalLength obj - 1 in
      let txt := get_excluded self in
      match eval txt ≫= py_set with
      | Raised SyntaxError | Raised NameError =>
          mk_handled (__update_excluded_list self)
            [QMessageBox_critical "Editing Error" ERR_MSG] None
      | Raised e => mk_handled self [] (Some e)
      | Ok exc =>
          match collect_out_of_range lastdir exc ∅ with
          | None =>
              mk_handled (__update_excluded_list self)
                [QMessageBox_critical "Editing Error" ERR_MSG] None
          | Some rem =>
              let kept := list_to_set (omap as_int exc) ∖ rem in
              let self' :=
                mk_DtiQAGui (Some (with_EXCLUDED_DIRS kept obj)) (ui self)
                  (preview_data self) in
              mk_handled (__update_excluded_list self') [] None
          end
      end
  end.

(** *** Attribute lookup on [self]

    Objects as far as [save_data] looks into them: a string, an object
    with named attributes, or anything else. *)
Inductive pyobj : Type :=
  | ObjStr (s : string)
  | ObjOpaque
  | ObjAttrs (attrs : list (string * pyobj)).

Fixpoint assoc (name : string) (attrs : list (string * pyobj)) : option pyobj :=
  match attrs with
  | [] => None
  | (k, v) :: attrs' => if String.eqb k name then Some v else assoc name attrs'
  end.

Definition getattr (o : pyobj) (name : string) : result pyobj :=
  match o with
  | ObjAttrs attrs =>
      match assoc name attrs with
      | Some v => Ok v
      | None => Raised AttributeError
      end
  | ObjStr _ | ObjOpaque => Raised AttributeError
  end.

(** The names bound on a [DtiQAGui] instance: the class attributes, the
    attributes [__init__] assigns and the public methods.  ([QWidget]
    contributes its own members, none of them named [parameter_box].) *)
Definition self_object (self : DtiQAGui) : pyobj :=
  ObjAttrs
    (map (fun name => (name, ObjOpaque))
       ["dti_obj"; "nifti_data"; "image_data"; "preview_data"; "pixel_sizes";
        "ui"; "statusbar"; "rescaleProgressBar"; "settings";
        "keyboard_exclude"; "rescaleSignal"; "is_data_loaded";
        "set_app_path"; "get_app_path"; "get_current_dir"; "get_current_x";
        "get_current_y"; "get_current_z"; "set_excluded"; "get_excluded";
        "set_nifti"; "get_nifti"; "set_pixel_sizes"; "get_pixel_sizes";
        "set_bvals"; "get_bvals"; "set_bvecs"; "get_bvecs"; "load_data";
        "save_data"]).

(** [str(o)] of a string object. *)
Definition py_str (o : pyobj) : string :=
  match o with
  | ObjStr s => s
  | _ => "<object>"
  end.

(** [os.path.dirname]: the text before the last slash. *)
Fixpoint dirname_chars (cs : list ascii) : option (list ascii) :=
  match cs with
  | [] => None
  | c :: cs' =>
      match dirname_chars cs' with
      | Some d => Some (c :: d)
      | None => if Ascii.eqb c "/" then Some [] else None
      end
  end.

Definition dirname (path : string) : string :=
  match dirname_chars (String.list_ascii_of_string path) with
  | Some d => String.string_of_list_ascii d
  | None => ""
  end.

(** [save_data].  [saveData] is the method of the collaborator
    [ProcessDTI]: it returns the names of the files written or raises. *)
Definition save_data (saveData : ProcessDTI -> result (list string))
    (self : DtiQAGui) : handled :=
  match dti_obj self with
  | None => mk_handled self [] None
  | Some obj =>
      if bool_decide (EXCLUDED_DIRS obj = ∅) then mk_handled self [] None
      else
        let ev := [setOverrideCursor; saveData_called] in
        match saveData obj with
        | Raised _ =>
            let ev := ev ++ [restoreOverrideCursor] in
            match
              getattr (self_object self) "parameter_box" ≫= fun box =>
              getattr box "dataset" ≫= fun dataset =>
              getattr dataset "dti_nifti_name"
            with
            | Raised e => mk_handled self ev (Some e)
            | Ok name =>
                mk_handled self
                  (ev ++ [QMessageBox_critical "SAVE ERROR"
                            ("Couldn't save data. Please check disk space (or writing privileges) on "
                             +:+ dirname (py_str name))])
                  None
            end
        | Ok saved_files =>
            mk_handled self
              (ev ++ [restoreOverrideCursor;
                      QMessageBox_information "SAVE OK"
                        ("File saved: " +:+ join " " saved_files)])
              None
        end
  end.

(** ** The claims read against the code: auxiliary notions

    What the specification says of one sample, in its own words: a sample
    at or above the cutoff is clamped to the cutoff, the result is scaled
    by 255/cutoff and cast. *)
Definition clamp_sample (dt : dtype) (maxValue s : Q) : Q :=
  if Qle_bool maxValue s then store_as dt maxValue else s.

Definition rescale_sample (dt : dtype) (maxValue s : Q) : Z :=
  uint8 (float_div (255 * clamp_sample dt maxValue s) maxValue).

(** A sample the element type of the volume can hold. *)
Definition representable (dt : dtype) (s : Q) : Prop := (store_as dt s == s)%Q.

(** Every channel of the volume gets through the loop body. *)
Definition channels_ok (data : ndarray4) (quantile : Q)
    (quantileFunc : option (list Q -> Q -> result Q)) : Prop :=
  forall cdata, cdata ∈ channels data ->
    exists c8, rescale_channel data quantile quantileFunc cdata = Ok c8.

(** The 8-bit channel the loop body computes for direction [d], and the
    output once the directions [dirs] have been written. *)
Definition channel8 (data : ndarray4) (quantile : Q)
    (quantileFunc : option (list Q -> Q -> result Q)) (d : nat) : list Z :=
  match channels data !! d with
  | Some cdata =>
      match rescale_channel data quantile quantileFunc cdata with
      | Ok c8 => c8
      | Raised _ => []
      end
  | None => []
  end.

Definition write_all (data : ndarray4) (quantile : Q)
    (quantileFunc : option (list Q -> Q -> result Q))
    (dirs : list nat) (output : list (list Z)) : list (list Z) :=
  foldl (fun out d => <[d := channel8 data quantile quantileFunc d]> out)
    output dirs.

Definition dir_ok (data : ndarray4) (quantile : Q)
    (quantileFunc : option (list Q -> Q -> result Q)) (d : nat) : Prop :=
  exists cdata c8, channels data !! d = Some cdata /\
                   rescale_channel data quantile quantileFunc cdata = Ok c8.

(** The trace of a complete run that reports progress. *)
Definition reported_trace (n : nat) : list rescale_event :=
  flat_map (fun d => [Emitted (Z.of_nat d + 1); ChannelWritten d]) (seq 0 n).

(** "The sink is invoked with [d + 1] after channel [d] is complete." *)
Definition emitted_after_written (trace : list rescale_event) (d : nat) : Prop :=
  exists i j, trace !! i = Some (ChannelWritten d) /\
              trace !! j = Some (Emitted (Z.of_nat d + 1)) /\ (i < j)%nat.



(** There is nothing to save: no dataset, or no excluded direction. *)
Definition nothing_to_save (self : DtiQAGui) : Prop :=
  match dti_obj self with
  | None => True
  | Some obj => EXCLUDED_DIRS obj = ∅
  end.

(** *** A session on a 4 x 12 x 6 volume

    Ten directions, unit voxels, no mirroring; the sliders stand in the
    middle.  The pixmap sizes are those the renderers produce for this
    volume: 256 x 128 for the yz preview (128 x 256 when rotated),
    170 x 256 for the zx preview (256 x 170 when rotated), 85 x 256 for the
    xy preview. *)
Definition dti_4_12_6 : ProcessDTI :=
  mk_ProcessDTI "/data/dti.nii.gz" (4, 12, 6) 10 ∅.

Definition unit_pixel_sizes : Q * Q * Q * Q := (1, 1, 1, 1)%Q.

Definition ui_4_12_6 (rotate : bool) : Ui_FormDTIQA :=
  mk_Ui false false false false rotate false false rotate
    (mk_QSlider 0 3 2) (mk_QSlider 0 11 6) (mk_QSlider 0 5 3) "[]".

Definition gui_4_12_6 : DtiQAGui :=
  mk_DtiQAGui (Some dti_4_12_6) (ui_4_12_6 false)
    (mk_PreviewObject (mk_QSize 256 128) (mk_QSize 170 256) (mk_QSize 85 256)).

Definition gui_4_12_6_rotated : DtiQAGui :=
  mk_DtiQAGui (Some dti_4_12_6) (ui_4_12_6 true)
    (mk_PreviewObject (mk_QSize 128 256) (mk_QSize 256 170) (mk_QSize 85 256)).

(** The rectangle of a pixmap drawn at the origin of its label. *)
Definition rect_at_origin (size : QSize) : QRect := mk_QRect 0 0 size.

(** The size of a rendered image, when the renderer returned one. *)
Definition rendered_size {A : Type} (r : result (QImage A)) : option QSize :=
  match r with
  | Ok img => Some (img_size img)
  | Raised _ => None
  end.

(** The slider positions a click leaves, as (x, y, z). *)
Definition located (self : DtiQAGui) : Z * Z * Z :=
  (value (horizontalSlider_x (ui self)),
   value (horizontalSlider_y (ui self)),
   value (horizontalSlider_z (ui self))).

(** ** Further handlers *)

(** [__reset_excluded]. *)
Definition __reset_excluded (self : DtiQAGui) : DtiQAGui :=
  match dti_obj self with
  | Some obj =>
      __update_excluded_list
        (mk_DtiQAGui (Some (with_EXCLUDED_DIRS ∅ obj)) (ui self)
           (preview_data self))
  | None => self
  end.

(** [QSlider.setMaximum]: the minimum gives way to a smaller maximum, and
    the value is forced into the new range. *)
Definition setMaximum (m : Z) (s : QSlider) : QSlider :=
  let lo := Z.min (minimum s) m in
  setValue (value s) (mk_QSlider lo (Z.max lo m) (value s)).

(** The [valueChanged] emissions of a slider going from [s] to [s']: Qt
    emits the new value when, and only when, the value changed. *)
Definition value_changes (s s' : QSlider) : list Z :=
  if value s =? value s' then [] else [value s'].

(** What [__update_preview_section] does to one slider when data is
    loaded, with [n] the extent of the volume along the slider's axis:
    [setMaximum(n-1)], an explicit [valueChanged.emit(n/2)] if the value is
    already [n/2], then [setValue(n/2)].  The result is the slider and the
    values it emitted, in order.  ([/] is Python 2 integer division.) *)
Definition center_slider (n : Z) (s : QSlider) : QSlider * list Z :=
  let s1 := setMaximum (n - 1) s in
  let explicit := if value s1 =? n / 2 then [n / 2] else [] in
  let s2 := setValue (n / 2) s1 in
  (s2, value_changes s s1 ++ explicit ++ value_changes s1 s2).

(** The same when no data is loaded: [setMaximum(0)], [setValue(0)]. *)
Definition park_slider (s : QSlider) : QSlider * list Z :=
  let s1 := setMaximum 0 s in
  let s2 := setValue 0 s1 in
  (s2, value_changes s s1 ++ value_changes s1 s2).

(** The outcome of [__update_preview_section]: the form, whether the three
    sliders are enabled, the values each slider emitted, and whether the
    three preview labels were cleared. *)
Record preview_section : Type := mk_preview_section {
  section_ui : Ui_FormDTIQA;
  sliders_enabled : bool;
  changed_x : list Z;
  changed_y : list Z;
  changed_z : list Z;
  labels_cleared : bool
}.

(** [image_shape] is [self.image_data.shape[:-1]], or [None] when
    [self.image_data] is [None]. *)
Definition __update_preview_section (image_shape : option (Z * Z * Z))
    (u : Ui_FormDTIQA) : preview_section :=
  match image_shape with
  | Some (sh0, sh1, sh2) =>
      let '(sx, ex) := center_slider sh0 (horizontalSlider_x u) in
      let '(sy, ey) := center_slider sh1 (horizontalSlider_y u) in
      let '(sz, ez) := center_slider sh2 (horizontalSlider_z u) in
      mk_preview_section
        (with_slider_z sz (with_slider_y sy (with_slider_x sx u)))
        true ex ey ez false
  | None =>
      let '(sx, ex) := park_slider (horizontalSlider_x u) in
      let '(sy, ey) := park_slider (horizontalSlider_y u) in
      let '(sz, ez) := park_slider (horizontalSlider_z u) in
      mk_preview_section
        (with_slider_z sz (with_slider_y sy (with_slider_x sx u)))
        false ex ey ez true
  end.

(** *** Notions used to state what the handlers keep *)

(** A slider whose value lies in its range. *)
Definition slider_ok (s : QSlider) : Prop := minimum s <= value s <= maximum s.





(** Every member of the exclusion set is a direction of the dataset. *)
Definition excluded_in_range (obj : ProcessDTI) : Prop :=
  forall n, n ∈ EXCLUDED_DIRS obj -> 0 <= n < SignalLength obj.

(** A quantile function that refuses a channel with a negative sample and
    is numpy's [percentile] otherwise. *)
Definition percentile_nonneg (a : list Q) (q : Q) : result Q :=
  if existsb (fun v => Qlt_bool v 0) a then Raised ValueError else percentile a q.

(** ** Arithmetic of the cast *)

Lemma inject_Z_nonneg (z : Z) : 0 <= z -> (0 <= inject_Z z)%Q.
Proof. intros H. change 0%Q with (inject_Z 0). now rewrite <- Zle_Qle. Qed.

Lemma inject_Z_zero (z : Z) : (inject_Z z == 0)%Q -> z = 0.
Proof. unfold Qeq. simpl. lia. Qed.


Lemma Qtrunc_nonneg (q : Q) : (0 <= q)%Q -> Qtrunc q = Qfloor q.
Proof.
  unfold Qle, Qtrunc, Qfloor. destruct q as [n d]. simpl. intros H.
  rewrite Z.mul_1_r, Z.mul_0_l in H. apply Z.quot_div_nonneg; [exact H | reflexivity].
Qed.

Lemma Qfloor_bounds (q : Q) (a b : Z) :
  (inject_Z a <= q)%Q -> (q <= inject_Z b)%Q -> a <= Qfloor q <= b.
Proof.
  intros Ha Hb. split.
  - rewrite <- (Qfloor_Z a). now apply Qfloor_resp_le.
  - rewrite <- (Qfloor_Z b). now apply Qfloor_resp_le.
Qed.


Lemma uint8_no_wrap (q : Q) :
  (0 <= q)%Q -> (q <= 255)%Q ->
  uint8 (Finite q) = Qfloor q /\ 0 <= Qfloor q <= 255.
Proof.
  intros H0 H255.
  assert (Hb : 0 <= Qfloor q <= 255) by (apply Qfloor_bounds; assumption).
  split; [|exact Hb].
  unfold uint8. rewrite (Qtrunc_nonneg q H0).
  destruct (Z.ltb_spec (Z.abs (Qfloor q)) (2 ^ 31)) as [_|Hge]; [|lia].
  apply Z.mod_small. lia.
Qed.

Lemma Qlt_bool_iff (a b : Q) : Qlt_bool a b = true <-> (a < b)%Q.
Proof.
  unfold Qlt_bool. rewrite negb_true_iff. split.
  - intros H. apply Qnot_le_lt. intros Hle. apply Qle_bool_iff in Hle. congruence.
  - intros H. destruct (Qle_bool b a) eqn:E; [|reflexivity].
    apply Qle_bool_iff in E. exfalso. exact (Qlt_not_le _ _ H E).
Qed.

Lemma float_div_nonzero (a b : Q) : ~ (b == 0)%Q -> float_div a b = Finite (a / b).
Proof.
  intros Hb. unfold float_div. destruct (Qeq_bool b 0) eqn:E; [|reflexivity].
  apply Qeq_bool_iff in E. contradiction.
Qed.


Lemma scaled_range (c m : Q) :
  (0 < m)%Q -> (0 <= c)%Q -> (c <= m)%Q ->
  (0 <= 255 * c / m)%Q /\ (255 * c / m <= 255)%Q.
Proof.
  intros Hm H0 Hc. split.
  - apply Qle_shift_div_l; [exact Hm|]. rewrite Qmult_0_l.
    apply Qmult_le_0_compat; [discriminate | exact H0].
  - apply Qle_shift_div_r; [exact Hm|].
    apply Qmult_le_l; [reflexivity | exact Hc].
Qed.

(** ** The loop body: masked assignment is a pointwise clamp *)

Lemma flat_assign_from {A : Type} (p : A -> bool) (v : A) (l pre : list A) :
  flat_assign (pre ++ l) (flatnonzero_from (length pre) (map p l)) v
  = pre ++ map (fun s => if p s then v else s) l.
Proof.
  revert pre. induction l as [|x l IH]; intros pre; [reflexivity|].
  assert (Hrest :
    flat_assign (pre ++ x :: l) (flatnonzero_from (S (length pre)) (map p l)) v
    = pre ++ x :: map (fun s => if p s then v else s) l).
  { specialize (IH (pre ++ [x])).
    rewrite length_app, Nat.add_1_r, <- !app_assoc in IH. exact IH. }
  simpl. destruct (p x).
  - unfold flat_assign in *. simpl. rewrite Hrest.
    rewrite insert_app_r_alt by lia. now rewrite Nat.sub_diag.
  - exact Hrest.
Qed.

Lemma flat_assign_mask {A : Type} (p : A -> bool) (v : A) (l : list A) :
  flat_assign l (flatnonzero (map p l)) v = map (fun s => if p s then v else s) l.
Proof. exact (flat_assign_from p v l []). Qed.

Lemma rescale_channel_robust (data : ndarray4) (quantile : Q)
    (f : list Q -> Q -> result Q) (cdata : list Q) (maxValue : Q) :
  f cdata quantile = Ok maxValue ->
  rescale_channel data quantile (Some f) cdata
  = Ok (map (rescale_sample (nd_dtype data) maxValue) cdata).
Proof.
  intros Hf. unfold rescale_channel. rewrite Hf. simpl.
  rewrite flat_assign_mask. unfold cast_uint8. rewrite map_map. reflexivity.
Qed.


(** ** The loop: one write per direction, in order *)

Section Loop.
Variable data : ndarray4.
Variable quantile : Q.
Variable quantileFunc : option (list Q -> Q -> result Q).

Lemma write_all_cons (d : nat) (dirs : list nat) (output : list (list Z)) :
  write_all data quantile quantileFunc (d :: dirs) output
  = write_all data quantile quantileFunc dirs
      (<[d := channel8 data quantile quantileFunc d]> output).
Proof. reflexivity. Qed.

Lemma rescale_loop_ok (signal : option pyqtSignal) (dirs : list nat) :
  Forall (dir_ok data quantile quantileFunc) dirs ->
  forall output trace,
    rescale_loop data quantile quantileFunc signal dirs output trace
    = (trace ++ flat_map (fun d => emit signal d ++ [ChannelWritten d]) dirs,
       Ok (write_all data quantile quantileFunc dirs output)).
Proof.
  induction 1 as [|d dirs (cdata & c8 & Hc & Hr) _ IH]; intros output trace.
  - simpl. now rewrite app_nil_r.
  - rewrite write_all_cons. simpl. rewrite Hc, Hr, IH.
    unfold channel8. rewrite Hc, Hr.
    now rewrite <- !app_assoc.
Qed.

(** The result does not depend on the signal, whether the loop ends or
    raises. *)
Lemma rescale_loop_signal (s1 s2 : option pyqtSignal) (dirs : list nat) :
  forall output t1 t2,
    (rescale_loop data quantile quantileFunc s1 dirs output t1).2
    = (rescale_loop data quantile quantileFunc s2 dirs output t2).2.
Proof.
  induction dirs as [|d dirs IH]; intros output t1 t2; [reflexivity|].
  simpl. destruct (channels data !! d) as [cdata|]; [|reflexivity].
  destruct (rescale_channel data quantile quantileFunc cdata); [|reflexivity].
  apply IH.
Qed.

Lemma write_all_length (dirs : list nat) (output : list (list Z)) :
  length (write_all data quantile quantileFunc dirs output) = length output.
Proof.
  revert output. induction dirs as [|d dirs IH]; intros output; [reflexivity|].
  now rewrite write_all_cons, IH, length_insert.
Qed.

Lemma write_all_other (dirs : list nat) (output : list (list Z)) (d : nat) :
  d ∉ dirs -> write_all data quantile quantileFunc dirs output !! d = output !! d.
Proof.
  revert output. induction dirs as [|a dirs IH]; intros output Hd; [reflexivity|].
  apply not_elem_of_cons in Hd as [Hne Hd].
  rewrite write_all_cons, IH by exact Hd.
  now apply list_lookup_insert_ne.
Qed.

Lemma write_all_lookup (dirs : list nat) (output : list (list Z)) (d : nat) :
  NoDup dirs -> d ∈ dirs -> (d < length output)%nat ->
  write_all data quantile quantileFunc dirs output !! d
  = Some (channel8 data quantile quantileFunc d).
Proof.
  revert output. induction dirs as [|a dirs IH]; intros output Hnd Hd Hlen.
  - now apply elem_of_nil in Hd.
  - apply NoDup_cons in Hnd as [Ha Hnd]. rewrite write_all_cons.
    apply elem_of_cons in Hd as [->|Hd].
    + rewrite write_all_other by exact Ha.
      now apply list_lookup_insert_eq.
    + apply IH; [exact Hnd | exact Hd | now rewrite length_insert].
Qed.
End Loop.

Lemma zeros_length (data : ndarray4) : length (zeros data) = length (channels data).
Proof. unfold zeros. apply length_map. Qed.

Lemma channels_ok_dirs (data : ndarray4) (quantile : Q)
    (quantileFunc : option (list Q -> Q -> result Q)) :
  channels_ok data quantile quantileFunc ->
  Forall (dir_ok data quantile quantileFunc) (seq 0 (length (channels data))).
Proof.
  intros Hok. apply Forall_forall. intros d Hd.
  apply elem_of_seq in Hd as [_ Hd]. simpl in Hd.
  destruct (lookup_lt_is_Some_2 (channels data) d Hd) as [cdata Hc].
  destruct (Hok cdata) as [c8 Hr]; [now apply list_elem_of_lookup_2 in Hc|].
  now exists cdata, c8.
Qed.

(** A complete run: the value returned, channel by channel, and the trace. *)
Lemma rescaleImageData_ok (data : ndarray4) (quantile : Q)
    (quantileFunc : option (list Q -> Q -> result Q))
    (signal : option pyqtSignal) :
  channels_ok data quantile quantileFunc ->
  exists out,
    rescaleImageData data quantile false quantileFunc signal
    = (flat_map (fun d => emit signal d ++ [ChannelWritten d])
         (seq 0 (length (channels data))), Ok out) /\
    length out = length (channels data) /\
    forall d cdata, channels data !! d = Some cdata ->
      exists c8, rescale_channel data quantile quantileFunc cdata = Ok c8 /\
                 out !! d = Some c8.
Proof.
  intros Hok.
  exists (write_all data quantile quantileFunc
            (seq 0 (length (channels data))) (zeros data)).
  split; [|split].
  - unfold rescaleImageData.
    now rewrite (rescale_loop_ok _ _ _ _ _ (channels_ok_dirs _ _ _ Hok)).
  - now rewrite write_all_length, zeros_length.
  - intros d cdata Hc.
    destruct (Hok cdata) as [c8 Hr]; [now apply list_elem_of_lookup_2 in Hc|].
    exists c8. split; [exact Hr|].
    pose proof (lookup_lt_Some _ _ _ Hc) as Hlt.
    rewrite write_all_lookup.
    + unfold channel8. now rewrite Hc, Hr.
    + apply NoDup_seq.
    + apply elem_of_seq. lia.
    + now rewrite zeros_length.
Qed.

(** ** The default quantile function returns *)

Lemma Qinsert_length (x : Q) (l : list Q) : length (Qinsert x l) = S (length l).
Proof.
  induction l as [|y l IH]; [reflexivity|].
  simpl. destruct (Qle_bool x y); simpl; [reflexivity | now rewrite IH].
Qed.

Lemma Qsort_length (l : list Q) : length (Qsort l) = length l.
Proof.
  unfold Qsort. induction l as [|x l IH]; [reflexivity|].
  simpl. now rewrite Qinsert_length, IH.
Qed.

Lemma Qlt_bool_false (a b : Q) : (b <= a)%Q -> Qlt_bool a b = false.
Proof.
  intros H. unfold Qlt_bool. apply Qle_bool_iff in H. now rewrite H.
Qed.

Lemma percentile_returns (a : list Q) (q : Q) :
  a <> [] -> (0 <= q)%Q -> (q <= 100)%Q -> exists m, percentile a q = Ok m.
Proof.
  intros Ha Hq0 Hq100. unfold percentile.
  destruct (Qeq_bool q 0).
  { destruct a; [contradiction | now eexists]. }
  destruct (Qeq_bool q 100).
  { destruct a; [contradiction | now eexists]. }
  assert (Hq'0 : (0 <= q / 100)%Q).
  { apply Qle_shift_div_l; [reflexivity | now rewrite Qmult_0_l]. }
  assert (Hq'1 : (q / 100 <= 1)%Q).
  { apply Qle_shift_div_r; [reflexivity | now rewrite Qmult_1_l]. }
  rewrite (Qlt_bool_false _ _ Hq'0), (Qlt_bool_false _ _ Hq'1). simpl.
  rewrite Qsort_length.
  assert (Hn : (0 < length a)%nat) by (destruct a; [contradiction | simpl; lia]).
  set (n := Z.of_nat (length a)).
  assert (Hk : (inject_Z n - 1 == inject_Z (n - 1))%Q).
  { unfold Qeq. simpl. lia. }
  set (index := (q / 100 * (inject_Z n - 1))%Q).
  assert (Hi0 : (inject_Z 0 <= index)%Q).
  { unfold index. rewrite Hk. apply Qmult_le_0_compat; [exact Hq'0|].
    apply inject_Z_nonneg. lia. }
  assert (Hi1 : (index <= inject_Z (n - 1))%Q).
  { unfold index. rewrite Hk. rewrite <- (Qmult_1_l (inject_Z (n - 1))) at 2.
    apply Qmult_le_compat_r; [exact Hq'1|]. apply inject_Z_nonneg. lia. }
  rewrite (Qtrunc_nonneg index Hi0).
  pose proof (Qfloor_bounds index 0 (n - 1) Hi0 Hi1) as Hfl.
  destruct (Qeq_bool (inject_Z (Qfloor index)) index) eqn:E.
  - destruct (lookup_lt_is_Some_2 (Qsort a) (Z.to_nat (Qfloor index))) as [x Hx].
    { rewrite Qsort_length. lia. }
    rewrite Hx. now eexists.
  - assert (Hlt : Qfloor index < n - 1).
    { destruct (Z_lt_le_dec (Qfloor index) (n - 1)) as [Hlt|Hge]; [exact Hlt|].
      exfalso. assert (Heq : Qfloor index = n - 1) by lia.
      assert (Hc : Qeq_bool (inject_Z (Qfloor index)) index = true).
      { apply Qeq_bool_iff. apply Qle_antisym; [apply Qfloor_le|].
        now rewrite Heq. }
      congruence. }
    destruct (lookup_lt_is_Some_2 (Qsort a) (Z.to_nat (Qfloor index))) as [x Hx].
    { rewrite Qsort_length. lia. }
    destruct (lookup_lt_is_Some_2 (Qsort a) (Z.to_nat (Qfloor index + 1))) as [y Hy].
    { rewrite Qsort_length. lia. }
    rewrite Hx, Hy. now eexists.
Qed.

Lemma percentile_interpolates :
  exists m, percentile [10; 11]%Q default_quantile = Ok m /\ (m == 10995 # 1000)%Q.
Proof. eexists. split; [vm_compute; reflexivity | reflexivity]. Qed.

(** ** Robust-percentile mode *)

Lemma store_as_floor_bounds (dt : dtype) (m : Q) :
  (0 <= m)%Q -> (0 <= store_as dt m)%Q /\ (store_as dt m <= m)%Q.
Proof.
  intros Hm. destruct dt; simpl.
  - split; [exact Hm | apply Qle_refl].
  - rewrite (Qtrunc_nonneg m Hm). split.
    + change 0%Q with (inject_Z 0). rewrite <- Zle_Qle.
      rewrite <- (Qfloor_Z 0). now apply Qfloor_resp_le.
    + apply Qfloor_le.
Qed.

Lemma clamp_sample_bounds (dt : dtype) (m s : Q) :
  (0 < m)%Q -> (0 <= s)%Q ->
  (0 <= clamp_sample dt m s)%Q /\ (clamp_sample dt m s <= m)%Q.
Proof.
  intros Hm Hs. unfold clamp_sample. destruct (Qle_bool m s) eqn:E.
  - apply store_as_floor_bounds. now apply Qlt_le_weak.
  - split; [exact Hs|]. apply Qlt_le_weak, Qnot_le_lt.
    intros Hle. apply Qle_bool_iff in Hle. congruence.
Qed.

(** Without wrap-around: a non-negative sample under a positive cutoff. *)
Lemma rescale_sample_no_wrap (dt : dtype) (m s : Q) :
  (0 < m)%Q -> (0 <= s)%Q ->
  rescale_sample dt m s = Qfloor (255 * clamp_sample dt m s / m) /\
  0 <= Qfloor (255 * clamp_sample dt m s / m) <= 255.
Proof.
  intros Hm Hs. destruct (clamp_sample_bounds dt m s Hm Hs) as [H0 H1].
  destruct (scaled_range _ _ Hm H0 H1) as [Ha Hb].
  unfold rescale_sample. rewrite float_div_nonzero.
  - now apply uint8_no_wrap.
  - intros Hz. rewrite Hz in Hm. discriminate.
Qed.



(** ** Fixed-depth mode *)






(** ** Progress reporting *)

Lemma flat_map_singleton {A B : Type} (g : A -> B) (l : list A) :
  flat_map (fun a => [] ++ [g a]) l = map g l.
Proof. induction l as [|a l IH]; [reflexivity|]. simpl in *. now rewrite IH. Qed.

(** C6 (amended): in the per-channel modes the value returned, or the
    exception raised, is the same with and without a progress signal; and
    in a run that gets through every channel the signal is emitted once per
    channel with its 1-based index, each emission coming immediately before
    that channel is processed and written, while a run without a signal
    emits nothing. *)
Theorem progress_reporting (data : ndarray4) (quantile : Q)
    (quantileFunc : option (list Q -> Q -> result Q)) :
  (rescaleImageData data quantile false quantileFunc (Some volumeBeingRescaled)).2
  = (rescaleImageData data quantile false quantileFunc None).2
  /\ (channels_ok data quantile quantileFunc ->
      exists out,
        rescaleImageData data quantile false quantileFunc (Some volumeBeingRescaled)
        = (reported_trace (length (channels data)), Ok out) /\
        rescaleImageData data quantile false quantileFunc None
        = (map ChannelWritten (seq 0 (length (channels data))), Ok out)).
Proof.
  assert (Hsame :
    (rescaleImageData data quantile false quantileFunc (Some volumeBeingRescaled)).2
    = (rescaleImageData data quantile false quantileFunc None).2).
  { unfold rescaleImageData. apply rescale_loop_signal. }
  split; [exact Hsame|].
  intros Hok.
  destruct (rescaleImageData_ok data quantile quantileFunc
              (Some volumeBeingRescaled) Hok) as (out & Hrun & _).
  destruct (rescaleImageData_ok data quantile quantileFunc None Hok)
    as (out' & Hrun' & _).
  rewrite Hrun, Hrun' in Hsame. simpl in Hsame. injection Hsame as <-.
  exists out. split; [exact Hrun|].
  rewrite Hrun'. unfold emit. now rewrite flat_map_singleton.
Qed.

Lemma progress_reporting_witness :
  rescaleImageData (mk_ndarray4 dt_int [[1; 2]%Q; [3; 4]%Q]) default_quantile
    false None (Some volumeBeingRescaled)
  = ([Emitted 1; ChannelWritten 0; Emitted 2; ChannelWritten 1],
     Ok [[127; 255]; [191; 255]]).
Proof.
  destruct (progress_reporting (mk_ndarray4 dt_int [[1; 2]%Q; [3; 4]%Q])
              default_quantile None) as [_ H].
  destruct H as (out & Hrun & Hrun').
  - intros cdata Hc. simpl in Hc.
    apply elem_of_cons in Hc as [->|Hc]; [eexists; reflexivity|].
    apply elem_of_cons in Hc as [->|Hc]; [eexists; reflexivity|].
    now apply elem_of_nil in Hc.
  - rewrite Hrun. vm_compute in Hrun'. injection Hrun' as <-. reflexivity.
Defined.

(** C6, as stated, fails: on a volume of one channel the index 1 is
    emitted before channel 0 is written, not after. *)
Lemma progress_emitted_first_counterexample :
  ~ emitted_after_written
      (rescaleImageData (mk_ndarray4 dt_int [[1; 2]%Q]) default_quantile false
         default_quantileFunc (Some volumeBeingRescaled)).1 0.
Proof.
  assert (Htrace :
    (rescaleImageData (mk_ndarray4 dt_int [[1; 2]%Q]) default_quantile false
       default_quantileFunc (Some volumeBeingRescaled)).1
    = [Emitted 1; ChannelWritten 0]) by (vm_compute; reflexivity).
  rewrite Htrace. intros (i & j & Hi & Hj & Hlt).
  destruct j as [|[|j]]; simpl in Hj; try discriminate. lia.
Qed.

(** ** Channel-max mode on an all-zero channel *)






(** ** The display size of a slice *)

Lemma extent_nonneg (r : Q) (d : Z) : (0 < r)%Q -> 0 <= d -> (0 <= r * inject_Z d)%Q.
Proof.
  intros Hr Hd. apply Qmult_le_0_compat; [now apply Qlt_le_weak|].
  now apply inject_Z_nonneg.
Qed.

Lemma extent_zero (r : Q) (d : Z) : (0 < r)%Q -> (r * inject_Z d == 0)%Q -> d = 0.
Proof.
  intros Hr H. apply Qmult_integral in H as [H|H].
  - rewrite H in Hr. discriminate.
  - now apply inject_Z_zero.
Qed.




(** ** Clicks against the rendering *)


Lemma scaled_pixel {A : Type} (size : QSize) (img : QImage A) (X Y : Z) :
  pixel (scaled size img) X Y
  = pixel img (X * width (img_size img) / width size)
              (Y * height (img_size img) / height size).
Proof. reflexivity. Qed.

(** The pixmap sizes recorded in the two sessions are the sizes of the
    images the renderers produce. *)
Lemma session_pixmap_sizes :
  let sizes self :=
    (rendered_size (__update_preview_x self dti_4_12_6 unit_pixel_sizes),
     rendered_size (__update_preview_y self dti_4_12_6 unit_pixel_sizes),
     rendered_size (__update_preview_z self dti_4_12_6 unit_pixel_sizes)) in
  let recorded self :=
    (Some (qpixmap_x (preview_data self)), Some (qpixmap_y (preview_data self)),
     Some (qpixmap_z (preview_data self))) in
  sizes gui_4_12_6 = recorded gui_4_12_6 /\
  sizes gui_4_12_6_rotated = recorded gui_4_12_6_rotated.
Proof. split; vm_compute; reflexivity. Qed.

(** C2, at a failing input.  On the 4 x 12 x 6 volume the xy preview is
    85 x 256 pixels and shows voxel (x, y) = (1, 11) at pixel (40, 250);
    the click there scales the horizontal position by the y extent (12) and
    the vertical one by the x extent (4), computes x = 5 and y = 3, and
    leaves the sliders at x = 3 (the slider's maximum) and y = 3. *)
Theorem click_on_xy_preview_mislocated :
  exists img self',
    __update_preview_z gui_4_12_6 dti_4_12_6 unit_pixel_sizes = Ok img /\
    img_size img = qpixmap_z (preview_data gui_4_12_6) /\
    pixel img 40 250 = (1, 11) /\
    rescale_position 40 85 12 = Ok 5 /\
    rescale_position 250 256 4 = Ok 3 /\
    __preview_clicked gui_4_12_6 (mk_PreviewMouseClick "z" 40 250)
      (rect_at_origin (qpixmap_z (preview_data gui_4_12_6))) = Ok self' /\
    located self' = (3, 3, 3).
Proof. do 2 eexists. repeat split; vm_compute; reflexivity. Qed.

(** The sibling branch for the zx preview scales the horizontal position by
    the x extent: the same relative position lands on the voxel drawn. *)
Lemma click_on_zx_preview_located :
  exists img self',
    __update_preview_y gui_4_12_6 dti_4_12_6 unit_pixel_sizes = Ok img /\
    img_size img = qpixmap_y (preview_data gui_4_12_6) /\
    pixel img 80 250 = (1, 5) /\
    __preview_clicked gui_4_12_6 (mk_PreviewMouseClick "y" 80 250)
      (rect_at_origin (qpixmap_y (preview_data gui_4_12_6))) = Ok self' /\
    located self' = (1, 6, 5).
Proof. do 2 eexists. repeat split; vm_compute; reflexivity. Qed.

(** C4, at a failing input.  With rotation enabled the zx preview of the
    4 x 6 slice is 256 x 170 pixels and shows voxel (x, z) = (0, 5) at
    pixel (0, 0) and (3, 0) at pixel (250, 160).  The rotated inverse
    exchanges the two indices after scaling each position by the extent of
    the axis it showed before the rotation, and does not reverse z: at
    (0, 0) it answers (0, 0), the same as without rotation, and at
    (250, 160) it answers (3, 3).  The yz branch does scale by the swapped
    extents and reverses z: the rotated yz preview shows (y, z) = (0, 5) at
    pixel (0, 0), and the rotated inverse of (0, 0) there is y = 0, z = 5. *)
Theorem rotated_click_on_zx_preview_mislocated :
  exists img rot plain rot' img_yz sibling,
    __update_preview_y gui_4_12_6_rotated dti_4_12_6 unit_pixel_sizes = Ok img /\
    img_size img = qpixmap_y (preview_data gui_4_12_6_rotated) /\
    pixel img 0 0 = (0, 5) /\
    pixel img 250 160 = (3, 0) /\
    __preview_clicked gui_4_12_6_rotated (mk_PreviewMouseClick "y" 0 0)
      (rect_at_origin (qpixmap_y (preview_data gui_4_12_6_rotated))) = Ok rot /\
    __preview_clicked gui_4_12_6 (mk_PreviewMouseClick "y" 0 0)
      (rect_at_origin (qpixmap_y (preview_data gui_4_12_6))) = Ok plain /\
    located rot = (0, 6, 0) /\
    located plain = (0, 6, 0) /\
    __preview_clicked gui_4_12_6_rotated (mk_PreviewMouseClick "y" 250 160)
      (rect_at_origin (qpixmap_y (preview_data gui_4_12_6_rotated))) = Ok rot' /\
    located rot' = (3, 6, 3) /\
    __update_preview_x gui_4_12_6_rotated dti_4_12_6 unit_pixel_sizes = Ok img_yz /\
    img_size img_yz = qpixmap_x (preview_data gui_4_12_6_rotated) /\
    pixel img_yz 0 0 = (0, 5) /\
    __preview_clicked gui_4_12_6_rotated (mk_PreviewMouseClick "x" 0 0)
      (rect_at_origin (qpixmap_x (preview_data gui_4_12_6_rotated))) = Ok sibling /\
    located sibling = (2, 0, 5).
Proof. do 6 eexists. repeat split; vm_compute; reflexivity. Qed.

(** The forward transform rotates before it mirrors. *)
Lemma rotate_then_mirror {A : Type} (data : ndarray2 A) (res : Q * Q)
    (previewsize size : QSize) (flipstate : bool * bool) :
  rescaleSize (shape data) res previewsize = Ok size ->
  numpy2grayscaleqimage data res previewsize flipstate true
  = Ok (mirrored flipstate.1 flipstate.2
          (transformed_rot90
             (scaled size
                (mk_QImage (mk_QSize (shape data).1 (shape data).2) (item data))))).
Proof. intros H. unfold numpy2grayscaleqimage. now rewrite H. Qed.

(** ** Replacing the exclusion set *)

(** C8, at a failing input.  The text [5] is not a list: [eval] returns the
    integer 5, [set(5)] raises TypeError, and neither [except] clause
    catches it.  The handler shows no message, leaves the field and the set
    as they were, and the exception leaves it. *)
Theorem validate_text_integer_uncaught
    (rest_of_python : string -> result pyvalue) (obj : ProcessDTI)
    (u : Ui_FormDTIQA) (previews : PreviewObject) :
  let self := mk_DtiQAGui (Some obj) (with_lineEdit_exclude "5" u) previews in
  __validate_text_excluded (py_eval rest_of_python) self
  = mk_handled self [] (Some TypeError).
Proof. reflexivity. Qed.

Lemma collect_out_of_range_spec (lastdir : Z) (exc : list pyvalue) :
  Forall (fun v => is_Some (as_int v)) exc ->
  forall rem, exists rem',
    collect_out_of_range lastdir exc rem = Some rem' /\
    forall n, n ∈ rem' <->
      n ∈ rem \/ (n ∈ omap as_int exc /\ (n < 0 \/ lastdir < n)).
Proof.
  induction 1 as [|v exc [k Hk] _ IH]; intros rem.
  - exists rem. split; [reflexivity|]. intros n. simpl.
    split; [now left | intros [Hn|[Hn _]]; [exact Hn | now apply elem_of_nil in Hn]].
  - simpl. rewrite Hk.
    destruct ((k <? 0) || (lastdir <? k)) eqn:E.
    + destruct (IH ({[ k ]} ∪ rem)) as (rem' & Hrem & Hspec).
      exists rem'. split; [exact Hrem|]. intros n.
      rewrite Hspec, elem_of_union, elem_of_singleton, elem_of_cons.
      apply orb_true_iff in E. rewrite Z.ltb_lt, Z.ltb_lt in E.
      split.
      * intros [[->|Hn]|[Hn Hout]];
          [right; split; [now left | exact E] | now left | right; split; [now right | exact Hout]].
      * intros [Hn|[[->|Hn] Hout]];
          [left; now right | left; now left | right; now split].
    + destruct (IH rem) as (rem' & Hrem & Hspec).
      exists rem'. split; [exact Hrem|]. intros n.
      rewrite Hspec, elem_of_cons.
      apply orb_false_iff in E. rewrite !Z.ltb_ge in E.
      split.
      * intros [Hn|[Hn Hout]]; [now left | right; split; [now right | exact Hout]].
      * intros [Hn|[[->|Hn] Hout]]; [now left | lia | right; now split].
Qed.

(** When the text evaluates to a collection of integers, the new set is
    the integers of the text that lie in [0, D-1]; nothing is reported. *)
Lemma validate_text_replaces (eval : string -> result pyvalue)
    (self : DtiQAGui) (obj : ProcessDTI) (exc : list pyvalue) :
  dti_obj self = Some obj ->
  eval (get_excluded self) ≫= py_set = Ok exc ->
  Forall (fun v => is_Some (as_int v)) exc ->
  exists kept,
    __validate_text_excluded eval self
    = mk_handled
        (__update_excluded_list
           (mk_DtiQAGui (Some (with_EXCLUDED_DIRS kept obj)) (ui self)
              (preview_data self))) [] None /\
    forall n, n ∈ kept <->
      n ∈ omap as_int exc /\ 0 <= n <= SignalLength obj - 1.
Proof.
  intros Hobj Hexc Hint.
  destruct (collect_out_of_range_spec (SignalLength obj - 1) exc Hint ∅)
    as (rem & Hrem & Hspec).
  exists (list_to_set (omap as_int exc) ∖ rem). split.
  - unfold __validate_text_excluded. now rewrite Hobj, Hexc, Hrem.
  - intros n. rewrite elem_of_difference, elem_of_list_to_set, Hspec.
    split.
    + intros [Hn Hnot]. split; [exact Hn|].
      destruct (Z_lt_le_dec n 0); [exfalso; apply Hnot; right; split; [exact Hn|lia]|].
      destruct (Z_lt_le_dec (SignalLength obj - 1) n);
        [exfalso; apply Hnot; right; split; [exact Hn|lia]|]. lia.
    + intros [Hn Hrange]. split; [exact Hn|].
      intros [Hempty|[_ Hout]]; [now apply elem_of_empty in Hempty | lia].
Qed.

(** The two examples of the specification, on a dataset of ten directions. *)
Lemma validate_text_example_in_range
    (rest_of_python : string -> result pyvalue) (prior : gset Z)
    (u : Ui_FormDTIQA) (previews : PreviewObject) :
  let obj := mk_ProcessDTI "/data/dti.nii.gz" (4, 12, 6) 10 prior in
  let self :=
    mk_DtiQAGui (Some obj) (with_lineEdit_exclude "[1, 2, 999]" u) previews in
  let after := __validate_text_excluded (py_eval rest_of_python) self in
  (EXCLUDED_DIRS <$> dti_obj (state after)) = Some {[ 1; 2 ]} /\
  get_excluded (state after) = "[1, 2]" /\
  events after = [] /\ raised after = None.
Proof. repeat split; vm_compute; reflexivity. Qed.

Lemma validate_text_example_not_a_list
    (rest_of_python : string -> result pyvalue) (obj : ProcessDTI)
    (u : Ui_FormDTIQA) (previews : PreviewObject) :
  let self :=
    mk_DtiQAGui (Some obj) (with_lineEdit_exclude "not a list" u) previews in
  let after := __validate_text_excluded (py_eval rest_of_python) self in
  dti_obj (state after) = Some obj /\
  get_excluded (state after) = str_sorted (EXCLUDED_DIRS obj) /\
  events after = [QMessageBox_critical "Editing Error" ERR_MSG] /\
  raised after = None.
Proof. repeat split. Qed.

(** ** Saving *)

Lemma self_has_no_parameter_box (self : DtiQAGui) :
  getattr (self_object self) "parameter_box" = Raised AttributeError.
Proof. reflexivity. Qed.

(** C9, at every failing input.  With a dataset loaded and a direction
    excluded, when [saveData] raises, the exception is caught and the
    cursor restored; the error message is then built from
    [self.parameter_box], an attribute the object does not have: no message
    is shown and AttributeError leaves the handler. *)
Theorem save_failure_not_reported
    (saveData : ProcessDTI -> result (list string)) (self : DtiQAGui)
    (obj : ProcessDTI) (e : exn) :
  dti_obj self = Some obj ->
  EXCLUDED_DIRS obj <> ∅ ->
  saveData obj = Raised e ->
  save_data saveData self
  = mk_handled self [setOverrideCursor; saveData_called; restoreOverrideCursor]
      (Some AttributeError).
Proof.
  intros Hobj Hexc Hsave. unfold save_data. rewrite Hobj.
  rewrite bool_decide_eq_false_2 by exact Hexc.
  now rewrite Hsave.
Qed.

Lemma save_failure_not_reported_witness :
  let self :=
    mk_DtiQAGui (Some (with_EXCLUDED_DIRS {[ 3 ]} dti_4_12_6))
      (ui_4_12_6 false) (preview_data gui_4_12_6) in
  save_data (fun _ => Raised IOError) self
  = mk_handled self [setOverrideCursor; saveData_called; restoreOverrideCursor]
      (Some AttributeError).
Proof.
  intros self.
  apply (save_failure_not_reported (fun _ => Raised IOError) self
           (with_EXCLUDED_DIRS {[ 3 ]} dti_4_12_6) IOError).
  - reflexivity.
  - simpl. apply non_empty_singleton_L.
  - reflexivity.
Defined.

(** When [saveData] returns, the names of the files are reported. *)
Lemma save_success_reported
    (saveData : ProcessDTI -> result (list string)) (self : DtiQAGui)
    (obj : ProcessDTI) (saved_files : list string) :
  dti_obj self = Some obj ->
  EXCLUDED_DIRS obj <> ∅ ->
  saveData obj = Ok saved_files ->
  save_data saveData self
  = mk_handled self
      [setOverrideCursor; saveData_called; restoreOverrideCursor;
       QMessageBox_information "SAVE OK" ("File saved: " +:+ join " " saved_files)]
      None.
Proof.
  intros Hobj Hexc Hsave. unfold save_data. rewrite Hobj.
  rewrite bool_decide_eq_false_2 by exact Hexc.
  now rewrite Hsave.
Qed.

(** C10: when no dataset is loaded or the exclusion set is empty,
    [save_data] does nothing at all: the state is the one it was given, no
    event occurs (no save, no message, no cursor change) and nothing is
    raised.  A save is attempted only with a dataset loaded and at least
    one direction excluded. *)
Theorem save_nothing_to_save
    (saveData : ProcessDTI -> result (list string)) (self : DtiQAGui) :
  (nothing_to_save self -> save_data saveData self = mk_handled self [] None)
  /\ (saveData_called ∈ events (save_data saveData self) ->
      exists obj, dti_obj self = Some obj /\ EXCLUDED_DIRS obj <> ∅).
Proof.
  unfold nothing_to_save, save_data. split.
  - destruct (dti_obj self) as [obj|]; [|reflexivity].
    intros Hempty. now rewrite bool_decide_eq_true_2.
  - destruct (dti_obj self) as [obj|].
    + destruct (bool_decide (EXCLUDED_DIRS obj = ∅)) eqn:E.
      * simpl. intros H. now apply elem_of_nil in H.
      * intros _. exists obj. split; [reflexivity|].
        now apply bool_decide_eq_false_1 in E.
    + simpl. intros H. now apply elem_of_nil in H.
Qed.

Lemma save_nothing_to_save_witness :
  save_data (fun _ => Ok ["dti.exc.nii.gz"]) gui_4_12_6
  = mk_handled gui_4_12_6 [] None.
Proof.
  destruct (save_nothing_to_save (fun _ => Ok ["dti.exc.nii.gz"]) gui_4_12_6)
    as [H _].
  apply H. reflexivity.
Defined.

(** ** More on the rescaler *)

Lemma rescale_channel_length (data : ndarray4) (quantile : Q)
    (quantileFunc : option (list Q -> Q -> result Q)) (cdata : list Q)
    (c8 : list Z) :
  rescale_channel data quantile quantileFunc cdata = Ok c8 ->
  length c8 = length cdata.
Proof.
  unfold rescale_channel. destruct quantileFunc as [f|].
  - destruct (f cdata quantile) as [m|]; simpl; [|discriminate].
    intros [= <-]. unfold cast_uint8.
    now rewrite flat_assign_mask, !length_map.
  - destruct (ndarray_max cdata) as [m|]; simpl; [|discriminate].
    intros [= <-]. unfold cast_uint8. now rewrite length_map.
Qed.

Lemma rescale_loop_returns (data : ndarray4) (quantile : Q)
    (quantileFunc : option (list Q -> Q -> result Q))
    (signal : option pyqtSignal) (dirs : list nat) :
  forall output trace trace' out,
    rescale_loop data quantile quantileFunc signal dirs output trace
    = (trace', Ok out) ->
    Forall (dir_ok data quantile quantileFunc) dirs.
Proof.
  induction dirs as [|d dirs IH]; intros output trace trace' out H.
  - constructor.
  - simpl in H. destruct (channels data !! d) as [cdata|] eqn:Hc; [|discriminate].
    destruct (rescale_channel data quantile quantileFunc cdata) as [c8|] eqn:Hr;
      [|discriminate].
    constructor; [now exists cdata, c8 | exact (IH _ _ _ _ H)].
Qed.

Lemma rescale_loop_app (data : ndarray4) (quantile : Q)
    (quantileFunc : option (list Q -> Q -> result Q))
    (signal : option pyqtSignal) (done rest : list nat) :
  Forall (dir_ok data quantile quantileFunc) done ->
  forall output trace,
    rescale_loop data quantile quantileFunc signal (done ++ rest) output trace
    = rescale_loop data quantile quantileFunc signal rest
        (write_all data quantile quantileFunc done output)
        (trace ++ flat_map (fun d => emit signal d ++ [ChannelWritten d]) done).
Proof.
  induction 1 as [|d done (cdata & c8 & Hc & Hr) _ IH]; intros output trace.
  - simpl. now rewrite app_nil_r.
  - rewrite write_all_cons. simpl. rewrite Hc, Hr, IH.
    unfold channel8. rewrite Hc, Hr. now rewrite <- !app_assoc.
Qed.

(** X1: whenever the rescaler returns a volume, in fixed-depth mode as in
    the per-channel modes, the volume has the shape of the input: as many
    channels, and in each channel as many samples. *)
Theorem rescale_preserves_shape (data : ndarray4) (quantile : Q) (fastest : bool)
    (quantileFunc : option (list Q -> Q -> result Q))
    (signal : option pyqtSignal) (out : list (list Z)) :
  (rescaleImageData data quantile fastest quantileFunc signal).2 = Ok out ->
  length out = length (channels data) /\
  forall d cdata, channels data !! d = Some cdata ->
    exists c8, out !! d = Some c8 /\ length c8 = length cdata.
Proof.
  unfold rescaleImageData. destruct fastest.
  - simpl. intros [= <-]. split; [apply length_map|].
    intros d cdata Hc. exists (cast_uint8 cdata 4095). split.
    + now rewrite list_lookup_fmap, Hc.
    + unfold cast_uint8. apply length_map.
  - intros Hrun.
    destruct (rescale_loop data quantile quantileFunc signal
                (seq 0 (length (channels data))) (zeros data) []) as [tr r] eqn:E.
    simpl in Hrun. subst r.
    pose proof (rescale_loop_returns _ _ _ _ _ _ _ _ _ E) as Hok.
    rewrite (rescale_loop_ok _ _ _ _ _ Hok) in E. injection E as _ <-.
    split; [now rewrite write_all_length, zeros_length|].
    intros d cdata Hc.
    pose proof (lookup_lt_Some _ _ _ Hc) as Hlt.
    rewrite Forall_forall in Hok.
    destruct (Hok d) as (cdata' & c8 & Hc' & Hr); [apply elem_of_seq; lia|].
    rewrite Hc in Hc'. injection Hc' as <-.
    exists c8. split; [|exact (rescale_channel_length _ _ _ _ _ Hr)].
    rewrite write_all_lookup.
    + unfold channel8. now rewrite Hc, Hr.
    + apply NoDup_seq.
    + apply elem_of_seq. lia.
    + now rewrite zeros_length.
Qed.

Lemma rescale_preserves_shape_witness :
  exists c8, [[0; 127; 255]; [255; 0; 127]] !! 1%nat = Some c8 /\
             length c8 = length [8; 0; 4]%Q.
Proof.
  destruct (rescale_preserves_shape
              (mk_ndarray4 dt_int [[0; 1; 2]%Q; [8; 0; 4]%Q]) default_quantile
              false None None [[0; 127; 255]; [255; 0; 127]]) as [_ H].
  - vm_compute. reflexivity.
  - exact (H 1%nat [8; 0; 4]%Q eq_refl).
Defined.







(** X3: in the per-channel modes, when channel [k] is the first on which
    the loop body raises, the rescaler raises that exception and returns no
    volume.  Before that it has processed channels 0 to k-1 in order and,
    with a progress signal, announced the channels 1 to k+1: the failing
    channel is announced, then nothing more happens. *)
Theorem rescale_first_failure (data : ndarray4) (quantile : Q)
    (quantileFunc : option (list Q -> Q -> result Q))
    (signal : option pyqtSignal) (k : nat) (cdata : list Q) (e : exn) :
  (forall d, (d < k)%nat -> dir_ok data quantile quantileFunc d) ->
  channels data !! k = Some cdata ->
  rescale_channel data quantile quantileFunc cdata = Raised e ->
  rescaleImageData data quantile false quantileFunc signal
  = (flat_map (fun d => emit signal d ++ [ChannelWritten d]) (seq 0 k)
       ++ emit signal k,
     Raised e).
Proof.
  intros Hbefore Hc Hr. unfold rescaleImageData.
  pose proof (lookup_lt_Some _ _ _ Hc) as Hlt.
  replace (length (channels data)) with (k + S (length (channels data) - S k))%nat
    by lia.
  rewrite seq_app. simpl seq at 2.
  rewrite rescale_loop_app.
  - simpl. now rewrite Hc, Hr.
  - apply Forall_forall. intros d Hd. apply Hbefore.
    apply elem_of_seq in Hd. lia.
Qed.

Lemma rescale_first_failure_witness :
  rescaleImageData (mk_ndarray4 dt_int [[1; 2]%Q; [3; -1]%Q; [5; 6]%Q]) 50 false
    (Some percentile_nonneg) (Some volumeBeingRescaled)
  = ([Emitted 1; ChannelWritten 0; Emitted 2], Raised ValueError).
Proof.
  apply (rescale_first_failure
           (mk_ndarray4 dt_int [[1; 2]%Q; [3; -1]%Q; [5; 6]%Q]) 50
           (Some percentile_nonneg) (Some volumeBeingRescaled) 1 [3; -1]%Q).
  - intros d Hd. assert (d = 0%nat) as -> by lia.
    exists [1; 2]%Q. eexists. split; [reflexivity | vm_compute; reflexivity].
  - reflexivity.
  - vm_compute. reflexivity.
Defined.

Lemma clamp_sample_monotone (dt : dtype) (m s t : Q) :
  (0 <= m)%Q -> representable dt s -> (s <= t)%Q ->
  (clamp_sample dt m s <= clamp_sample dt m t)%Q.
Proof.
  intros Hm Hrep Hst. unfold clamp_sample.
  destruct (Qle_bool m s) eqn:Es; destruct (Qle_bool m t) eqn:Et.
  - apply Qle_refl.
  - apply Qle_bool_iff in Es. exfalso.
    assert (Hmt : (m <= t)%Q) by exact (Qle_trans _ _ _ Es Hst).
    apply Qle_bool_iff in Hmt. congruence.
  - assert (Hsm : (s < m)%Q) by (apply Qlt_bool_iff; unfold Qlt_bool; now rewrite Es).
    destruct dt; simpl; [now apply Qlt_le_weak|].
    unfold representable in Hrep. simpl in Hrep.
    rewrite <- Hrep, <- Zle_Qle, (Qtrunc_nonneg m Hm).
    rewrite <- (Qfloor_Z (Qtrunc s)). apply Qfloor_resp_le.
    rewrite Hrep. now apply Qlt_le_weak.
  - exact Hst.
Qed.

(** X4: in robust-percentile mode, under a strictly positive cutoff, the
    rescaling of a channel preserves the order of its non-negative samples:
    if one sample is at most another, so are their 8-bit values (the
    smaller of the two being a value the element type of the volume can
    hold). *)
Theorem rescale_order_preserving (data : ndarray4) (quantile : Q)
    (f : list Q -> Q -> result Q) (cdata : list Q) (maxValue : Q) :
  f cdata quantile = Ok maxValue -> (0 < maxValue)%Q ->
  exists c8,
    rescale_channel data quantile (Some f) cdata = Ok c8 /\
    forall i j s t, cdata !! i = Some s -> cdata !! j = Some t ->
      representable (nd_dtype data) s -> (0 <= s)%Q -> (s <= t)%Q ->
      exists a b, c8 !! i = Some a /\ c8 !! j = Some b /\ a <= b.
Proof.
  intros Hf Hm. eexists. split; [exact (rescale_channel_robust _ _ _ _ _ Hf)|].
  intros i j s t Hi Hj Hrep Hs Hst.
  exists (rescale_sample (nd_dtype data) maxValue s),
         (rescale_sample (nd_dtype data) maxValue t).
  split; [now rewrite list_lookup_fmap, Hi|].
  split; [now rewrite list_lookup_fmap, Hj|].
  assert (Ht : (0 <= t)%Q) by exact (Qle_trans _ _ _ Hs Hst).
  destruct (rescale_sample_no_wrap (nd_dtype data) maxValue s Hm Hs) as [-> _].
  destruct (rescale_sample_no_wrap (nd_dtype data) maxValue t Hm Ht) as [-> _].
  apply Qfloor_resp_le. unfold Qdiv.
  apply Qmult_le_compat_r; [|now apply Qlt_le_weak, Qinv_lt_0_compat].
  apply Qmult_le_l; [reflexivity|].
  apply clamp_sample_monotone; [now apply Qlt_le_weak | exact Hrep | exact Hst].
Qed.

Lemma rescale_order_preserving_witness :
  exists c8,
    rescale_channel (mk_ndarray4 dt_int [[1; 2; 9]%Q]) 50 (Some percentile) [1; 2; 9]%Q
    = Ok c8 /\
    exists a b, c8 !! 0%nat = Some a /\ c8 !! 2%nat = Some b /\ a <= b.
Proof.
  destruct (rescale_order_preserving (mk_ndarray4 dt_int [[1; 2; 9]%Q]) 50 percentile
              [1; 2; 9]%Q (2 # 1)%Q) as (c8 & Hr & Hord).
  - vm_compute. reflexivity.
  - reflexivity.
  - exists c8. split; [exact Hr|].
    apply (Hord 0%nat 2%nat 1%Q 9%Q);
      [reflexivity | reflexivity | reflexivity | discriminate | discriminate].
Defined.

(** ** More on the rendering *)

Lemma rescaleSize_tall (dim0 dim1 : Z) (spacing1 spacing2 : Q) (box : QSize) :
  ~ (spacing2 * inject_Z dim1 == 0)%Q ->
  (spacing1 * inject_Z dim0 <= spacing2 * inject_Z dim1)%Q ->
  rescaleSize (dim0, dim1) (spacing1, spacing2) box
  = Ok (mk_QSize
          (Qtrunc (spacing1 * inject_Z dim0 / (spacing2 * inject_Z dim1)
                   * inject_Z (height box)))
          (height box)).
Proof.
  intros Hv Hle. unfold rescaleSize. simpl.
  apply Qle_bool_iff in Hle. rewrite Hle.
  now rewrite (float_div_nonzero _ _ Hv).
Qed.

Lemma rescaleSize_wide (dim0 dim1 : Z) (spacing1 spacing2 : Q) (box : QSize) :
  (0 <= spacing2 * inject_Z dim1)%Q ->
  (spacing2 * inject_Z dim1 < spacing1 * inject_Z dim0)%Q ->
  rescaleSize (dim0, dim1) (spacing1, spacing2) box
  = Ok (mk_QSize (width box)
          (Qtrunc (spacing2 * inject_Z dim1 / (spacing1 * inject_Z dim0)
                   * inject_Z (width box)))).
Proof.
  intros Hv0 Hlt. unfold rescaleSize. simpl.
  destruct (Qle_bool (spacing1 * inject_Z dim0) (spacing2 * inject_Z dim1)) eqn:E.
  { apply Qle_bool_iff in E. exfalso. exact (Qlt_not_le _ _ Hlt E). }
  rewrite float_div_nonzero; [reflexivity|].
  intros Hz. rewrite Hz in Hlt. exact (Qlt_not_le _ _ Hlt Hv0).
Qed.

Lemma shrunk_side_bounds (small large : Q) (side : Z) :
  (0 <= small)%Q -> (small <= large)%Q -> (0 < large)%Q -> 0 <= side ->
  0 <= Qtrunc (small / large * inject_Z side) <= side.
Proof.
  intros H0 Hle Hpos Hside.
  assert (Hr0 : (0 <= small / large)%Q).
  { apply Qle_shift_div_l; [exact Hpos | now rewrite Qmult_0_l]. }
  assert (Hr1 : (small / large <= 1)%Q).
  { apply Qle_shift_div_r; [exact Hpos | now rewrite Qmult_1_l]. }
  pose proof (inject_Z_nonneg side Hside) as Hs.
  assert (Hq0 : (inject_Z 0 <= small / large * inject_Z side)%Q).
  { now apply Qmult_le_0_compat. }
  assert (Hq1 : (small / large * inject_Z side <= inject_Z side)%Q).
  { rewrite <- (Qmult_1_l (inject_Z side)) at 2.
    now apply Qmult_le_compat_r. }
  rewrite (Qtrunc_nonneg _ Hq0). now apply Qfloor_bounds.
Qed.

(** X5: for a non-empty slice with positive spacings and a preview box of
    non-negative sides, the size computation returns, one side of the
    result is the corresponding side of the box, and the other, shrunk,
    side is non-negative and at most the side it was derived from (the
    height of the box for the width, the width of the box for the height).
    In a square box, such as the 256 x 256 default, the result fits in the
    box. *)
Theorem display_size_bounds (dim0 dim1 : Z) (spacing1 spacing2 : Q)
    (box : QSize) :
  (0 < spacing1)%Q -> (0 < spacing2)%Q ->
  0 <= dim0 -> 0 <= dim1 -> 0 < dim0 + dim1 ->
  0 <= width box -> 0 <= height box ->
  exists size,
    rescaleSize (dim0, dim1) (spacing1, spacing2) box = Ok size /\
    ((height size = height box /\ 0 <= width size <= height box) \/
     (width size = width box /\ 0 <= height size <= width box)) /\
    (width box = height box ->
     0 <= width size <= width box /\ 0 <= height size <= height box).
Proof.
  intros Hs1 Hs2 Hd0 Hd1 Hne Hw Hh.
  pose proof (extent_nonneg spacing1 dim0 Hs1 Hd0) as Hh0.
  pose proof (extent_nonneg spacing2 dim1 Hs2 Hd1) as Hv0.
  destruct (Qlt_le_dec (spacing2 * inject_Z dim1) (spacing1 * inject_Z dim0))
    as [Hlt|Hle].
  - eexists. split; [exact (rescaleSize_wide _ _ _ _ box Hv0 Hlt)|].
    pose proof (shrunk_side_bounds _ _ (width box) Hv0 (Qlt_le_weak _ _ Hlt)
                  (Qle_lt_trans _ _ _ Hv0 Hlt) Hw) as Hb.
    simpl. split; [right; split; [reflexivity | exact Hb]|].
    intros Hsq. split; lia.
  - assert (Hv : ~ (spacing2 * inject_Z dim1 == 0)%Q).
    { intros Hz.
      assert (dim1 = 0) by exact (extent_zero _ _ Hs2 Hz).
      assert (Hhz : (spacing1 * inject_Z dim0 == 0)%Q).
      { apply Qle_antisym; [|exact Hh0]. now rewrite <- Hz. }
      assert (dim0 = 0) by exact (extent_zero _ _ Hs1 Hhz). lia. }
    assert (Hpos : (0 < spacing2 * inject_Z dim1)%Q).
    { destruct (Qle_lt_or_eq _ _ Hv0) as [Hlt|Heq]; [exact Hlt|].
      exfalso. apply Hv. now symmetry. }
    eexists. split; [exact (rescaleSize_tall _ _ _ _ box Hv Hle)|].
    pose proof (shrunk_side_bounds _ _ (height box) Hh0 Hle Hpos Hh) as Hb.
    simpl. split; [left; split; [reflexivity | exact Hb]|].
    intros Hsq. split; lia.
Qed.

Lemma display_size_bounds_witness :
  exists size,
    rescaleSize (12, 6) (2, 3)%Q DEFAULT_PREVIEW_SIZE = Ok size /\
    0 <= height size <= 256.
Proof.
  destruct (display_size_bounds 12 6 2 3 DEFAULT_PREVIEW_SIZE)
    as (size & Hsize & _ & Hfit);
    [reflexivity | reflexivity | lia | lia | lia | simpl; lia | simpl; lia |].
  exists size. split; [exact Hsize|]. now apply Hfit.
Defined.





(** ** More on the click locator *)

Lemma setValue_ok (v : Z) (s : QSlider) :
  minimum s <= maximum s -> slider_ok (setValue v s).
Proof. unfold slider_ok, setValue. simpl. lia. Qed.

Lemma setValue_in_range (v : Z) (s : QSlider) :
  minimum s <= v <= maximum s -> value (setValue v s) = v.
Proof. unfold setValue. simpl. lia. Qed.


Lemma rescale_position_cases (p : Z) (pm : Q) (n : Z) :
  rescale_position p pm n = Raised ZeroDivisionError \/
  exists v, rescale_position p pm n = Ok v.
Proof.
  unfold rescale_position. destruct (Qeq_bool pm 0); [now left | right; now eexists].
Qed.

Ltac click_positions H :=
  repeat match type of H with
  | context [rescale_position ?p ?pm ?n] =>
      destruct (rescale_position p pm n); simpl in H
  end.



(** X8: a click moves only the two in-plane sliders of the preview it hits.
    A click on the xy preview leaves the z slider as it was, one on the yz
    preview the x slider, one on the zx preview the y slider; and with no
    dataset loaded, or with a slicing axis other than x, y and z, the
    click changes nothing at all. *)
Theorem click_leaves_slicing_axis (self self' : DtiQAGui)
    (mouseclicked : PreviewMouseClick) (pixmap_rect : QRect) :
  __preview_clicked self mouseclicked pixmap_rect = Ok self' ->
  (SLICING_AXIS mouseclicked = "z" ->
   horizontalSlider_z (ui self') = horizontalSlider_z (ui self)) /\
  (SLICING_AXIS mouseclicked = "x" ->
   horizontalSlider_x (ui self') = horizontalSlider_x (ui self)) /\
  (SLICING_AXIS mouseclicked = "y" ->
   horizontalSlider_y (ui self') = horizontalSlider_y (ui self)) /\
  (dti_obj self = None \/
   (SLICING_AXIS mouseclicked <> "x" /\ SLICING_AXIS mouseclicked <> "y" /\
    SLICING_AXIS mouseclicked <> "z") ->
   self' = self).
Proof.
  destruct self as [[obj|] u previews]; unfold __preview_clicked; simpl;
    [|intros [= <-]; repeat split; auto].
  destruct (DIMS obj) as [[shape0 shape1] shape2].
  destruct u as [xyv xyh yzv yzh yzr zxv zxh zxr sx sy sz txt]. simpl.
  destruct mouseclicked as [slaxis X Y]. simpl.
  intros H.
  destruct (String.eqb_spec slaxis "z") as [->|Hz];
    [|destruct (String.eqb_spec slaxis "x") as [->|Hx];
      [|destruct (String.eqb_spec slaxis "y") as [->|Hy]]];
  repeat match type of H with
  | context [if ?b then _ else _] => is_var b; destruct b
  end;
  click_positions H; try discriminate;
  injection H as <-; simpl;
  (repeat split; try reflexivity; try discriminate;
   intros [Hnone|(Hx' & Hy' & Hz')]; congruence).
Qed.

Lemma click_leaves_slicing_axis_witness :
  exists self',
    __preview_clicked gui_4_12_6 (mk_PreviewMouseClick "y" 80 250)
      (rect_at_origin (qpixmap_y (preview_data gui_4_12_6))) = Ok self' /\
    horizontalSlider_y (ui self') = horizontalSlider_y (ui gui_4_12_6).
Proof.
  eexists. split; [vm_compute; reflexivity|].
  eapply (click_leaves_slicing_axis gui_4_12_6 _
            (mk_PreviewMouseClick "y" 80 250)
            (rect_at_origin (qpixmap_y (preview_data gui_4_12_6)))).
  - vm_compute. reflexivity.
  - reflexivity.
Defined.

Lemma rescale_position_zero (p n : Z) :
  rescale_position p (inject_Z 0) n = Raised ZeroDivisionError.
Proof. reflexivity. Qed.

Ltac click_raises :=
  rewrite ?rescale_position_zero; simpl;
  repeat match goal with
  | |- context [rescale_position ?p ?pm ?n] =>
      destruct (rescale_position_cases p pm n) as [->|[? ->]]; simpl
  end;
  rewrite ?rescale_position_zero; reflexivity.

(** X9: with a dataset loaded, a click on a preview whose pixmap has a
    zero width or a zero height is not located: the division by the side
    of the pixmap raises ZeroDivisionError, for each of the three previews
    and whatever the mirroring and the rotation. *)
Theorem click_on_empty_pixmap (self : DtiQAGui) (obj : ProcessDTI)
    (X Y : Z) (pixmap_rect : QRect) :
  dti_obj self = Some obj ->
  (width (qpixmap_z (preview_data self)) = 0 \/
   height (qpixmap_z (preview_data self)) = 0 ->
   __preview_clicked self (mk_PreviewMouseClick "z" X Y) pixmap_rect
   = Raised ZeroDivisionError) /\
  (width (qpixmap_x (preview_data self)) = 0 \/
   height (qpixmap_x (preview_data self)) = 0 ->
   __preview_clicked self (mk_PreviewMouseClick "x" X Y) pixmap_rect
   = Raised ZeroDivisionError) /\
  (width (qpixmap_y (preview_data self)) = 0 \/
   height (qpixmap_y (preview_data self)) = 0 ->
   __preview_clicked self (mk_PreviewMouseClick "y" X Y) pixmap_rect
   = Raised ZeroDivisionError).
Proof.
  destruct self as [o u [[wx hx] [wy hy] [wz hz]]]. simpl. intros ->.
  unfold __preview_clicked. simpl.
  destruct (DIMS obj) as [[shape0 shape1] shape2].
  destruct u as [xyv xyh yzv yzh yzr zxv zxh zxr sx sy sz txt]. simpl.
  split; [|split]; intros [->| ->]; try destruct yzr; click_raises.
Qed.

Lemma click_on_empty_pixmap_witness :
  __preview_clicked
    (mk_DtiQAGui (Some dti_4_12_6) (ui_4_12_6 false)
       (mk_PreviewObject (mk_QSize 256 128) (mk_QSize 170 256) (mk_QSize 0 256)))
    (mk_PreviewMouseClick "z" 0 10) (rect_at_origin (mk_QSize 0 256))
  = Raised ZeroDivisionError.
Proof.
  destruct (click_on_empty_pixmap
              (mk_DtiQAGui (Some dti_4_12_6) (ui_4_12_6 false)
                 (mk_PreviewObject (mk_QSize 256 128) (mk_QSize 170 256)
                    (mk_QSize 0 256)))
              dti_4_12_6 0 10 (rect_at_origin (mk_QSize 0 256)) eq_refl)
    as [H _].
  apply H. left. reflexivity.
Defined.









(** ** More on the exclusion field *)

Lemma update_excluded_list_dti_obj (self : DtiQAGui) :
  dti_obj (__update_excluded_list self) = dti_obj self.
Proof. destruct self as [[obj|] u previews]; reflexivity. Qed.

Lemma update_excluded_list_text (self : DtiQAGui) (obj : ProcessDTI) :
  dti_obj self = Some obj ->
  get_excluded (__update_excluded_list self) = str_sorted (EXCLUDED_DIRS obj).
Proof. destruct self as [o u previews]. simpl. now intros ->. Qed.









Lemma py_equal_ints (x y : Z) : py_equal (PyInt x) (PyInt y) = bool_decide (x = y).
Proof.
  unfold py_equal. simpl. destruct (bool_decide_reflect (x = y)) as [->|Hne].
  - apply Qeq_bool_iff. reflexivity.
  - destruct (Qeq_bool (inject_Z x) (inject_Z y)) eqn:E; [|reflexivity].
    apply Qeq_bool_iff in E. unfold Qeq in E. simpl in E. lia.
Qed.

Lemma py_distinct_ints (l : list Z) :
  forall seen, NoDup l -> (forall x, x ∈ l -> x ∉ seen) ->
    py_distinct (PyInt <$> seen) (PyInt <$> l) = PyInt <$> l.
Proof.
  induction l as [|x l IH]; intros seen Hnd Hfresh; [reflexivity|].
  apply NoDup_cons in Hnd as [Hx Hnd]. simpl.
  assert (Hnew : existsb (py_equal (PyInt x)) (PyInt <$> seen) = false).
  { destruct (existsb (py_equal (PyInt x)) (PyInt <$> seen)) eqn:E; [|reflexivity].
    apply existsb_exists in E as (v & Hv & Heq).
    apply list_elem_of_In, list_elem_of_fmap in Hv as (y & -> & Hy).
    rewrite py_equal_ints in Heq. apply bool_decide_eq_true in Heq as <-.
    exfalso. apply (Hfresh x); [now left | exact Hy]. }
  rewrite Hnew. f_equal.
  apply (IH (x :: seen) Hnd). intros y Hy Hin.
  apply elem_of_cons in Hin as [->|Hin]; [contradiction|].
  apply (Hfresh y); [now right | exact Hin].
Qed.

Lemma py_set_ints (l : list Z) :
  NoDup l -> py_set (PyList (PyInt <$> l)) = Ok (PyInt <$> l).
Proof.
  intros Hnd. unfold py_set.
  assert (Hh : forallb hashable (PyInt <$> l) = true).
  { apply forallb_forall. intros v Hv.
    apply list_elem_of_In, list_elem_of_fmap in Hv as (y & -> & _). reflexivity. }
  rewrite Hh. f_equal.
  apply (py_distinct_ints l [] Hnd). intros x _ Hin. now apply elem_of_nil in Hin.
Qed.

Lemma omap_as_int_ints (l : list Z) : omap as_int (PyInt <$> l) = l.
Proof. induction l as [|x l IH]; [reflexivity|]. simpl. now f_equal. Qed.

Lemma collect_out_of_range_none_out (lastdir : Z) (l : list Z) (rem : gset Z) :
  (forall n, n ∈ l -> 0 <= n <= lastdir) ->
  collect_out_of_range lastdir (PyInt <$> l) rem = Some rem.
Proof.
  induction l as [|x l IH]; intros Hr; [reflexivity|]. simpl.
  assert (Hx : 0 <= x <= lastdir) by (apply Hr; now left).
  destruct (Z.ltb_spec x 0); [lia|]. destruct (Z.ltb_spec lastdir x); [lia|].
  simpl. apply IH. intros n Hn. apply Hr. now right.
Qed.

(** X16: the text the program writes is a text it reads back.  With a
    dataset loaded whose excluded directions all lie in [0, D-1], once the
    field shows the sorted list of the set, and [eval] reads that text as
    the list of those integers (as Python does), the handler accepts it
    without a message and leaves the dataset, the set and the field exactly
    as they are. *)
Theorem displayed_text_is_accepted (eval : string -> result pyvalue)
    (self : DtiQAGui) (obj : ProcessDTI) :
  dti_obj self = Some obj -> excluded_in_range obj ->
  eval (str_sorted (EXCLUDED_DIRS obj))
  = Ok (PyList (PyInt <$> merge_sort Z.le (elements (EXCLUDED_DIRS obj)))) ->
  __validate_text_excluded eval (__update_excluded_list self)
  = mk_handled (__update_excluded_list self) [] None.
Proof.
  intros Hobj Hinv Heval.
  set (sorted := merge_sort Z.le (elements (EXCLUDED_DIRS obj))) in *.
  assert (Hperm : sorted ≡ₚ elements (EXCLUDED_DIRS obj))
    by apply merge_sort_Permutation.
  assert (Hnd : NoDup sorted) by (rewrite Hperm; apply NoDup_elements).
  assert (Hin : forall n, n ∈ sorted <-> n ∈ EXCLUDED_DIRS obj).
  { intros n. rewrite Hperm. apply elem_of_elements. }
  assert (Hobj1 : dti_obj (__update_excluded_list self) = Some obj)
    by now rewrite update_excluded_list_dti_obj.
  assert (Hexc : eval (get_excluded (__update_excluded_list self)) ≫= py_set
                 = Ok (PyInt <$> sorted)).
  { rewrite (update_excluded_list_text self obj Hobj), Heval.
    exact (py_set_ints sorted Hnd). }
  assert (Hint : Forall (fun v => is_Some (as_int v)) (PyInt <$> sorted)).
  { apply Forall_fmap, Forall_forall. intros n _. now exists n. }
  destruct (validate_text_replaces eval _ obj _ Hobj1 Hexc Hint)
    as (kept & -> & Hkept).
  assert (Hset : kept = EXCLUDED_DIRS obj).
  { apply set_eq. intros n. rewrite Hkept, omap_as_int_ints, Hin.
    split; [now intros [? _]|]. intros Hn. split; [exact Hn|].
    specialize (Hinv n Hn). lia. }
  rewrite Hset. f_equal.
  destruct self as [o u previews]. destruct obj as [fname dims slen excl].
  simpl in *. subst o. reflexivity.
Qed.

Lemma displayed_text_is_accepted_witness :
  let self :=
    mk_DtiQAGui (Some (with_EXCLUDED_DIRS {[ 7; 3 ]} dti_4_12_6))
      (ui_4_12_6 false) (preview_data gui_4_12_6) in
  __validate_text_excluded (py_eval (fun _ => Raised SyntaxError))
    (__update_excluded_list self)
  = mk_handled (__update_excluded_list self) [] None.
Proof.
  intros self.
  apply (displayed_text_is_accepted (py_eval (fun _ => Raised SyntaxError)) self
           (with_EXCLUDED_DIRS {[ 7; 3 ]} dti_4_12_6)).
  - reflexivity.
  - intros n Hn. simpl in Hn.
    apply elem_of_union in Hn as [Hn|Hn]; apply elem_of_singleton in Hn as ->;
      simpl; lia.
  - vm_compute. reflexivity.
Defined.

(** ** More on saving *)

(** X17: clearing then saving writes nothing.  After [__reset_excluded]
    the loaded dataset has no excluded direction and the field shows [[]],
    and a save requested in that state attempts nothing: no call to
    [saveData], no message, no cursor change, no exception. *)
Theorem reset_then_save (saveData : ProcessDTI -> result (list string))
    (self : DtiQAGui) :
  save_data saveData (__reset_excluded self)
  = mk_handled (__reset_excluded self) [] None /\
  (forall obj, dti_obj self = Some obj ->
     dti_obj (__reset_excluded self) = Some (with_EXCLUDED_DIRS ∅ obj) /\
     get_excluded (__reset_excluded self) = "[]").
Proof.
  destruct self as [[obj|] u previews]; split; try reflexivity.
  - intros obj' [= <-]. split; reflexivity.
  - intros obj' [=].
Qed.

Lemma reset_then_save_witness :
  let self :=
    mk_DtiQAGui (Some (with_EXCLUDED_DIRS {[ 7; 3 ]} dti_4_12_6))
      (ui_4_12_6 false) (preview_data gui_4_12_6) in
  get_excluded (__reset_excluded self) = "[]".
Proof.
  intros self.
  destruct (reset_then_save (fun _ => Raised IOError) self) as [_ H].
  now destruct (H _ eq_refl) as [_ Htext].
Defined.


(** ** The preview section *)

Lemma center_slider_spec (n : Z) (s : QSlider) :
  0 < n -> minimum s = 0 ->
  (center_slider n s).1 = mk_QSlider 0 (n - 1) (n / 2) /\
  last (center_slider n s).2 = Some (n / 2) /\
  0 <= n / 2 <= n - 1.
Proof.
  intros Hn Hmin.
  assert (Hhalf : 0 <= n / 2 <= n - 1).
  { pose proof (Z.div_mod n 2 ltac:(lia)).
    pose proof (Z.mod_pos_bound n 2 ltac:(lia)). lia. }
  destruct s as [mn mx v]. simpl in Hmin. subst mn.
  unfold center_slider, setMaximum, setValue, value_changes. simpl.
  replace (Z.min 0 (n - 1)) with 0 by lia.
  replace (Z.max 0 (n - 1)) with (n - 1) by lia.
  replace (Z.max 0 (Z.min (n - 1) (n / 2))) with (n / 2) by lia.
  split; [reflexivity|]. split; [|exact Hhalf].
  set (v1 := Z.max 0 (Z.min (n - 1) v)).
  destruct (Z.eqb_spec v1 (n / 2)) as [->|Hne].
  - rewrite app_nil_r. now rewrite last_snoc.
  - simpl. now rewrite last_snoc.
Qed.

Lemma park_slider_spec (s : QSlider) :
  minimum s <= 0 ->
  (park_slider s).1 = mk_QSlider (minimum s) 0 0.
Proof.
  intros Hmin. destruct s as [mn mx v]. simpl in Hmin.
  unfold park_slider, setMaximum, setValue. simpl. f_equal; lia.
Qed.

(** X19: opening the preview section puts every view on the middle slice.
    With image data of positive extents (sh0, sh1, sh2) and sliders whose
    minimum is 0, [__update_preview_section] enables the sliders, gives
    each the range [0, sh-1] and the value sh/2 (integer division), which
    lies in that range, and the last [valueChanged] each slider emits
    carries sh/2, so that every preview is redrawn at least once, on its
    middle slice; the exclusion field is untouched.  Without
    image data the sliders are disabled and parked at 0 with maximum 0,
    and the preview labels are cleared. *)
Theorem preview_section_centers (u : Ui_FormDTIQA) (sh0 sh1 sh2 : Z) :
  minimum (horizontalSlider_x u) = 0 ->
  minimum (horizontalSlider_y u) = 0 ->
  minimum (horizontalSlider_z u) = 0 ->
  (0 < sh0 -> 0 < sh1 -> 0 < sh2 ->
   let r := __update_preview_section (Some (sh0, sh1, sh2)) u in
   sliders_enabled r = true /\ labels_cleared r = false /\
   horizontalSlider_x (section_ui r) = mk_QSlider 0 (sh0 - 1) (sh0 / 2) /\
   horizontalSlider_y (section_ui r) = mk_QSlider 0 (sh1 - 1) (sh1 / 2) /\
   horizontalSlider_z (section_ui r) = mk_QSlider 0 (sh2 - 1) (sh2 / 2) /\
   slider_ok (horizontalSlider_x (section_ui r)) /\
   slider_ok (horizontalSlider_y (section_ui r)) /\
   slider_ok (horizontalSlider_z (section_ui r)) /\
   last (changed_x r) = Some (sh0 / 2) /\
   last (changed_y r) = Some (sh1 / 2) /\
   last (changed_z r) = Some (sh2 / 2) /\
   lineEdit_exclude (section_ui r) = lineEdit_exclude u)
  /\
  (let r := __update_preview_section None u in
   sliders_enabled r = false /\ labels_cleared r = true /\
   horizontalSlider_x (section_ui r) = mk_QSlider 0 0 0 /\
   horizontalSlider_y (section_ui r) = mk_QSlider 0 0 0 /\
   horizontalSlider_z (section_ui r) = mk_QSlider 0 0 0).
Proof.
  intros Hx Hy Hz. split.
  - intros H0 H1 H2.
    destruct (center_slider_spec sh0 _ H0 Hx) as (Ex & Lx & Rx).
    destruct (center_slider_spec sh1 _ H1 Hy) as (Ey & Ly & Ry).
    destruct (center_slider_spec sh2 _ H2 Hz) as (Ez & Lz & Rz).
    unfold __update_preview_section.
    destruct (center_slider sh0 (horizontalSlider_x u)) as [sx ex].
    destruct (center_slider sh1 (horizontalSlider_y u)) as [sy ey].
    destruct (center_slider sh2 (horizontalSlider_z u)) as [sz ez].
    simpl in *. subst sx sy sz.
    unfold slider_ok. simpl.
    repeat split; auto; lia.
  - pose proof (park_slider_spec (horizontalSlider_x u) ltac:(lia)) as Ex.
    pose proof (park_slider_spec (horizontalSlider_y u) ltac:(lia)) as Ey.
    pose proof (park_slider_spec (horizontalSlider_z u) ltac:(lia)) as Ez.
    unfold __update_preview_section.
    destruct (park_slider (horizontalSlider_x u)) as [sx ex].
    destruct (park_slider (horizontalSlider_y u)) as [sy ey].
    destruct (park_slider (horizontalSlider_z u)) as [sz ez].
    simpl in *. subst sx sy sz. rewrite Hx, Hy, Hz. repeat split.
Qed.

Lemma preview_section_centers_witness :
  let r :=
    __update_preview_section (Some (4, 12, 6))
      (mk_Ui false false false false false false false false
         (mk_QSlider 0 0 0) (mk_QSlider 0 99 50) (mk_QSlider 0 5 3) "[]") in
  horizontalSlider_y (section_ui r) = mk_QSlider 0 11 6 /\
  last (changed_z r) = Some 3.
Proof.
  intros r.
  destruct (preview_section_centers
              (mk_Ui false false false false false false false false
                 (mk_QSlider 0 0 0) (mk_QSlider 0 99 50) (mk_QSlider 0 5 3) "[]")
              4 12 6 eq_refl eq_refl eq_refl) as [H _].
  destruct H as (_ & _ & _ & Hy & _ & _ & _ & _ & _ & _ & Hz & _); try lia.
  split; [exact Hy | exact Hz].
Defined.
